(** * t38c: the response decoder and the command layer of a Tile38 client

    A shallow embedding of [response.go], [errors.go] and the commands of
    [db.go] of package [t38c], and the properties of the decoder and of the
    command wrappers that the specification states about them.

    The package leans on three collaborators that are not part of it:
    [gjson] (JSON validation and iteration), [time] (timestamp parsing) and
    [radix] (the connection pool).  Each is represented by the interface the
    package actually uses, as described where it is introduced. *)

From Stdlib Require Import ZArith Ascii String List Bool Lia.
From Stdlib Require Import Floats.SpecFloat.
From stdpp Require Import base option list gmap strings pretty.

#[local] Set Warnings "-register-all,-clear-no-such-hyp".

(** ** Machine numbers *)

(** [int64]: a [Z] kept in the signed 64-bit range by [int64_wrap]. *)
Definition int64_min : Z := (- 2 ^ 63)%Z.
Definition int64_max : Z := (2 ^ 63 - 1)%Z.

Definition int64_wrap (z : Z) : Z := ((z + 2 ^ 63) mod 2 ^ 64 - 2 ^ 63)%Z.

(** [x++] on an [int64]. *)
Definition int64_incr (x : Z) : Z := int64_wrap (x + 1).

(** [float64]: the IEEE 754 values, as the standard library specifies them. *)
Abbreviation float64 := spec_float.

Definition float64_zero : float64 := S754_zero false.

(** The integer part of a finite float, fraction discarded. *)
Definition float64_trunc (f : float64) : option Z :=
  match f with
  | S754_zero _ => Some 0%Z
  | S754_finite s m e =>
      let mag := Z.shiftl (Z.pos m) e in
      Some (if s then (- mag)%Z else mag)
  | S754_infinity _ | S754_nan => None
  end.

(** The conversion [int64(f)].  Go leaves the result unspecified when the
    value does not fit; amd64 yields the smallest [int64], as here. *)
Definition int64_of_float64 (f : float64) : Z :=
  match float64_trunc f with
  | Some z => if ((int64_min <=? z) && (z <=? int64_max))%Z then z else int64_min
  | None => int64_min
  end.

(** ** The [gjson] interface

    A [Result] stands for a [gjson.Result] obtained from text that passed
    [gjson.ValidBytes]: its type tag, the raw text it spans, its decoded
    string or number, and the values [ForEach] finds inside it.  The raw text
    is carried as data: it is the slice of the input the value occupies, so
    that of an array starts with a bracket and that of an object with a
    brace, which is what [IsArray] and [IsObject] look at. *)
Module gjson.

(** [gjson.Type]; its constants carry a prefix here, [True], [False] and
    [String] being taken. *)
Inductive ResultType : Set :=
| TNull | TFalse | TNumber | TString | TTrue | TJSON.

Inductive Result : Type :=
| JNull
| JFalse
| JTrue
| JNumber (raw : string) (num : float64)
| JString (raw : string) (str : string)
| JArray (raw : string) (elems : list Result)
| JObject (raw : string) (members : list (string * Result)).

Definition Type_ (t : Result) : ResultType :=
  match t with
  | JNull => TNull
  | JFalse => TFalse
  | JTrue => TTrue
  | JNumber _ _ => TNumber
  | JString _ _ => TString
  | JArray _ _ | JObject _ _ => TJSON
  end.

Definition ResultType_eqb (a b : ResultType) : bool :=
  match a, b with
  | TNull, TNull | TFalse, TFalse | TNumber, TNumber
  | TString, TString | TTrue, TTrue | TJSON, TJSON => true
  | _, _ => false
  end.

(** [t.Raw] *)
Definition Raw (t : Result) : string :=
  match t with
  | JNull => "null"
  | JFalse => "false"
  | JTrue => "true"
  | JNumber raw _ | JString raw _ | JArray raw _ | JObject raw _ => raw
  end.

(** [t.Str]: set for strings only. *)
Definition Str (t : Result) : string :=
  match t with
  | JString _ str => str
  | _ => ""
  end.

(** [t.Num]: set for numbers only. *)
Definition Num (t : Result) : float64 :=
  match t with
  | JNumber _ num => num
  | _ => float64_zero
  end.

Definition ascii_lower (c : ascii) : ascii :=
  let n := Ascii.nat_of_ascii c in
  if (Nat.leb 65 n && Nat.leb n 90)%bool then Ascii.ascii_of_nat (n + 32) else c.

Fixpoint ToLower (s : string) : string :=
  match s with
  | EmptyString => EmptyString
  | String.String c s' => String.String (ascii_lower c) (ToLower s')
  end.

(** [strconv.ParseBool], its error dropped. *)
Definition ParseBool (s : string) : bool :=
  (String.eqb s "1" || String.eqb s "t" || String.eqb s "T" ||
   String.eqb s "TRUE" || String.eqb s "true" || String.eqb s "True")%bool.

(** [t.Bool()] *)
Definition Bool (t : Result) : bool :=
  match t with
  | JTrue => true
  | JString _ str => ParseBool (ToLower str)
  | JNumber _ num => match num with S754_zero _ => false | _ => true end
  | _ => false
  end.

Definition IsArray (t : Result) : bool :=
  match t with JArray _ _ => true | _ => false end.

Definition IsObject (t : Result) : bool :=
  match t with JObject _ _ => true | _ => false end.

(** What [t.ForEach] hands to its iterator, in order: the members of an
    object, the elements of an array, and a value that is neither once, by
    itself.  The package reads a key through [k.Str] only, so a key is that
    string; it is empty for array elements and for a lone value. *)
Definition entries (t : Result) : list (string * Result) :=
  match t with
  | JObject _ members => members
  | JArray _ elems => map (fun x => (EmptyString, x)) elems
  | _ => [(EmptyString, t)]
  end.

(** [t.ForEach(iterator)] for an iterator that threads a state [S] and
    either returns [true] ([None]: go on) or panics ([Some msg]: the
    iteration is abandoned, the state stays as the iterator left it).  No
    iterator of the package returns [false]. *)
Fixpoint iterate {S : Type} (iterator : S -> string -> Result -> S * option string)
    (items : list (string * Result)) (s : S) : S * option string :=
  match items with
  | [] => (s, None)
  | (k, v) :: rest =>
      match iterator s k v with
      | (s', Some msg) => (s', Some msg)
      | (s', None) => iterate iterator rest s'
      end
  end.

Definition ForEach {S : Type} (t : Result)
    (iterator : S -> string -> Result -> S * option string) (s : S) : S * option string :=
  iterate iterator (entries t) s.

(** A reply as it arrives: bytes that [gjson.ValidBytes] rejects, or bytes
    it accepts together with what [gjson.ParseBytes] makes of them. *)
Inductive bytes : Type :=
| Malformed (text : string)
| Wellformed (doc : Result).

Definition ValidBytes (b : bytes) : bool :=
  match b with Malformed _ => false | Wellformed _ => true end.

Definition ParseBytes (b : bytes) : Result :=
  match b with Malformed _ => JNull | Wellformed doc => doc end.

End gjson.

(** ** errors.go *)

(** The values behind Go's [error] interface that the package meets: its own
    [t38cError], the wrapper [fmt.Errorf] builds for a [%w] verb, and errors
    of other packages, known by their text alone. *)
Inductive error : Type :=
| t38cError (msg : string) (werr : option error)
| wrapError (msg : string) (err : error)
| foreignError (msg : string).

Fixpoint Error (e : error) : string :=
  match e with
  | t38cError msg None => msg
  | t38cError msg (Some w) => msg +:+ ": " +:+ Error w
  | wrapError msg _ => msg
  | foreignError msg => msg
  end.

Definition Unwrap (e : error) : option error :=
  match e with
  | t38cError _ werr => werr
  | wrapError _ err => Some err
  | foreignError _ => None
  end.

Definition newError (w : option error) (m : string) : error := t38cError m w.

(** [newErrorf(w, m, v)] for the one shape of format the package uses: text
    ending in a single [%s], given here as the text before the verb. *)
Definition newErrorf (w : option error) (m : string) (v : string) : error :=
  t38cError (m +:+ v) w.

(** [fmt.Errorf("%w: %s", e, s)] *)
Definition Errorf_w_s (e : error) (s : string) : error :=
  wrapError (Error e +:+ ": " +:+ s) e.

(** [errors.Is(e, target)] along the [Unwrap] chain; the package's error
    values are compared by their text and what they wrap. *)
Fixpoint error_eqb (a b : error) : bool :=
  match a, b with
  | t38cError m1 None, t38cError m2 None => String.eqb m1 m2
  | t38cError m1 (Some w1), t38cError m2 (Some w2) => String.eqb m1 m2 && error_eqb w1 w2
  | wrapError m1 e1, wrapError m2 e2 => String.eqb m1 m2 && error_eqb e1 e2
  | foreignError m1, foreignError m2 => String.eqb m1 m2
  | _, _ => false
  end.

Fixpoint Is (e target : error) : bool :=
  error_eqb e target ||
  match e with
  | t38cError _ (Some w) => Is w target
  | wrapError _ w => Is w target
  | _ => false
  end.

(** ** The [radix] pool

    What the package needs of a pool: [Do] writes one request (the command
    name and its arguments) and gets back one reply, which is either a frame
    of bytes handed to the receiver's [UnmarshalText] or an error reported
    without a frame (a broken connection, an error reply of the server).
    The server is a function of the requests seen so far and of the current
    one.  [Network] records what went over the wire. *)
Inductive Reply : Type :=
| Frame (b : gjson.bytes)
| Failure (e : error).

Record Pool : Type := mkPool {
  respond : list (list string) -> list string -> Reply;
  closeResult : option error
}.

Record Network : Type := mkNetwork {
  sent : list (list string);
  closed : nat
}.

(** The two ways a call ends: it returns, or it panics. *)
Inductive Outcome (A : Type) : Type :=
| Returns (a : A)
| Panics (msg : string).

Arguments Returns {A} a.
Arguments Panics {A} msg.

(** ** Test data

    Replies of the package's tests and a few more, written with
    constructors that give every value the raw text of its compact form,
    and stand-ins for the collaborators to run the code on them. *)
Module testdata.

(** The text [s] between double quotes. *)
Definition quoted (s : string) : string :=
  String.String "034"%char (s +:+ String.String "034"%char EmptyString).

Fixpoint join (sep : string) (l : list string) : string :=
  match l with
  | [] => EmptyString
  | [x] => x
  | x :: rest => x +:+ sep +:+ join sep rest
  end.

(** A string without escapes. *)
Definition jstring (s : string) : gjson.Result := gjson.JString (quoted s) s.

(** The number written [raw], whose [float64] is [m * 2 ^ e]. *)
Definition jnumber (raw : string) (m : positive) (e : Z) : gjson.Result :=
  gjson.JNumber raw (S754_finite false m e).

Definition jzero : gjson.Result := gjson.JNumber "0" (S754_zero false).

Definition jarray (elems : list gjson.Result) : gjson.Result :=
  gjson.JArray ("[" +:+ join "," (map gjson.Raw elems) +:+ "]") elems.

Definition jobject (members : list (string * gjson.Result)) : gjson.Result :=
  gjson.JObject
    ("{" +:+ join "," (map (fun m => quoted (fst m) +:+ ":" +:+ gjson.Raw (snd m)) members)
         +:+ "}")
    members.

Definition point : gjson.Result :=
  jobject [("type", jstring "Point"); ("coordinates", jarray [jzero; jzero])].

(** [{"ok":true,"object":{"type":"Point","coordinates":[0,0]},
     "fields":{"fY":999.999,"fZ":123},"ttl":500,"elapsed":"100ms"}] *)
Definition single_json : gjson.bytes :=
  gjson.Wellformed (jobject
    [("ok", gjson.JTrue);
     ("object", point);
     ("fields", jobject [("fY", jnumber "999.999" 8796084226114978 (-43));
                         ("fZ", jnumber "123" 8655355533852672 (-46))]);
     ("ttl", jnumber "500" 8796093022208000 (-44));
     ("elapsed", jstring "100ms")]).

(** [{"ok":true,"object":"objstr","fields":{"fY":999.999,"fZ":123},
     "ttl":500,"elapsed":"100ms"}] *)
Definition single_string : gjson.bytes :=
  gjson.Wellformed (jobject
    [("ok", gjson.JTrue);
     ("object", jstring "objstr");
     ("fields", jobject [("fY", jnumber "999.999" 8796084226114978 (-43));
                         ("fZ", jnumber "123" 8655355533852672 (-46))]);
     ("ttl", jnumber "500" 8796093022208000 (-44));
     ("elapsed", jstring "100ms")]).

(** [{"ok":true,"fields":["fZ","fY"],"ids":["value1","value2"],
     "count":2,"cursor":0}] *)
Definition multiple_ids : gjson.bytes :=
  gjson.Wellformed (jobject
    [("ok", gjson.JTrue);
     ("fields", jarray [jstring "fZ"; jstring "fY"]);
     ("ids", jarray [jstring "value1"; jstring "value2"]);
     ("count", jnumber "2" 4503599627370496 (-51));
     ("cursor", jzero)]).

(** [{"command":"del","id":"value3","time":"2018-08-27T19:07:33.671191005Z"}] *)
Definition fence_del : gjson.bytes :=
  gjson.Wellformed (jobject
    [("command", jstring "del");
     ("id", jstring "value3");
     ("time", jstring "2018-08-27T19:07:33.671191005Z")]).

(** [{"command":"del","id":"value3","time":"yesterday"}] *)
Definition fence_bad_time : gjson.bytes :=
  gjson.Wellformed (jobject
    [("command", jstring "del");
     ("id", jstring "value3");
     ("time", jstring "yesterday")]).

(** [{invalid}], [{"zzz": true}] and [{"fields": true}] *)
Definition invalid : gjson.bytes := gjson.Malformed "{invalid}".
Definition unknown_value : gjson.bytes := gjson.Wellformed (jobject [("zzz", gjson.JTrue)]).
Definition unknown_type : gjson.bytes := gjson.Wellformed (jobject [("fields", gjson.JTrue)]).

(** [{"ok":true,"id":"value1","zzz":true,"err":"late"}] *)
Definition unknown_in_the_middle : gjson.bytes :=
  gjson.Wellformed (jobject
    [("ok", gjson.JTrue); ("id", jstring "value1"); ("zzz", gjson.JTrue);
     ("err", jstring "late")]).

(** [{"ok":true,"object":5}] *)
Definition object_number : gjson.bytes :=
  gjson.Wellformed (jobject
    [("ok", gjson.JTrue); ("object", jnumber "5" 5629499534213120 (-50))]).

(** [{"fields":["a","a"]}] and [{"fields":["a"],"fields":["b"]}] *)
Definition fields_array_twice_a : gjson.bytes :=
  gjson.Wellformed (jobject [("fields", jarray [jstring "a"; jstring "a"])]).

Definition fields_key_twice : gjson.bytes :=
  gjson.Wellformed (jobject [("fields", jarray [jstring "a"]);
                             ("fields", jarray [jstring "b"])]).

(** [{"fields":{"a":1,"a":2}}] *)
Definition fields_object_twice_a : gjson.bytes :=
  gjson.Wellformed (jobject
    [("fields", jobject [("a", jnumber "1" 4503599627370496 (-52));
                         ("a", jnumber "2" 4503599627370496 (-51))])]).

(** [{"ok":false,"err":"id not found"}] and [{"ok":false,"err":"bad request"}] *)
Definition not_found : gjson.bytes :=
  gjson.Wellformed (jobject [("ok", gjson.JFalse); ("err", jstring "id not found")]).

Definition bad_request : gjson.bytes :=
  gjson.Wellformed (jobject [("ok", gjson.JFalse); ("err", jstring "bad request")]).

(** [{"ok":true}] *)
Definition ok_true : gjson.bytes := gjson.Wellformed (jobject [("ok", gjson.JTrue)]).

(** [{"id":"a","ok":true,"id":"b"}] *)
Definition id_twice : gjson.bytes :=
  gjson.Wellformed (jobject
    [("id", jstring "a"); ("ok", gjson.JTrue); ("id", jstring "b")]).

(** [{"fields":["a"],"fields":true}] *)
Definition fields_then_bad : gjson.bytes :=
  gjson.Wellformed (jobject
    [("fields", jarray [jstring "a"]); ("fields", gjson.JTrue)]).

(** The members of [multiple_ids] in another order:
    [{"cursor":0,"ids":["value1","value2"],"ok":true,"count":2,
      "fields":["fZ","fY"]}] *)
Definition multiple_ids_reordered : gjson.bytes :=
  gjson.Wellformed (jobject
    [("cursor", jzero);
     ("ids", jarray [jstring "value1"; jstring "value2"]);
     ("ok", gjson.JTrue);
     ("count", jnumber "2" 4503599627370496 (-51));
     ("fields", jarray [jstring "fZ"; jstring "fY"])]).

(** The answer of the mock server's [ReturnOkTrue]:
    [{"ok":true,"object":{"id":"test"},"ttl":5.67}] *)
Definition ok_object_ttl : gjson.bytes :=
  gjson.Wellformed (jobject
    [("ok", gjson.JTrue);
     ("object", jobject [("id", jstring "test")]);
     ("ttl", jnumber "5.67" 6383852471797678 (-50))]).

(** [5] and [[1]]: valid JSON that is no object. *)
Definition lone_number : gjson.bytes :=
  gjson.Wellformed (jnumber "5" 5629499534213120 (-50)).

Definition array_of_one : gjson.bytes :=
  gjson.Wellformed (jarray [jnumber "1" 4503599627370496 (-52)]).

(** A server that answers every request with the same frame. *)
Definition answering (b : gjson.bytes) : Pool := mkPool (fun _ _ => Frame b) None.

(** Nothing sent, nothing closed. *)
Definition quiet : Network := mkNetwork [] 0.

(** Time as nanoseconds since the Unix epoch, and a parser that knows the
    timestamps of the geofence test replies. *)
Definition zero_time : Z := (-62135596800 * 10 ^ 9)%Z.

Definition Parse (layout value : string) : Z * option error :=
  if String.eqb value "2018-08-27T19:07:23.578553343Z"
  then (1535396843578553343%Z, None)
  else if String.eqb value "2018-08-27T19:07:33.671191005Z"
  then (1535396853671191005%Z, None)
  else (zero_time, Some (foreignError "parsing time: cannot parse")).

End testdata.

Section Client.

(** ** response.go *)

(** The [time] package as the decoder needs it: the type [time.Time], its
    zero value [time.Time{}], and [time.Parse(layout, value)] with its two
    results. *)
Variable time_Time : Type.
Variable time_zero : time_Time.
Variable time_Parse : string -> string -> time_Time * option error.

Definition RFC3339Nano : string := "2006-01-02T15:04:05.999999999Z07:00".

(** [Response] represents a database response.  A nil slice is the empty
    list and a nil map the empty map: the package only appends to the
    former and, before it writes to the latter, replaces it by a new map. *)
Record Response : Type := mkResponse {
  ID : string;
  Object : string;
  IDs : list string;
  Objects : list string;
  FieldNames : gmap string Z;
  FieldValues : list float64;
  Count : Z;
  Cursor : Z;
  TTL : float64;
  Err : string;
  Elapsed : string;
  Ok : bool;
  Live : bool;
  Command : string;
  Group : string;
  Detect : string;
  Key : string;
  Time : time_Time;
  fields : Z
}.

(** [new(Response)] *)
Definition new_Response : Response :=
  mkResponse "" "" [] [] ∅ [] 0 0 float64_zero "" "" false false "" "" "" ""
    time_zero 0.

(** Assignment to one field. *)
Definition set_ID (x : string) (r : Response) : Response :=
  mkResponse x (Object r) (IDs r) (Objects r) (FieldNames r) (FieldValues r)
    (Count r) (Cursor r) (TTL r) (Err r) (Elapsed r) (Ok r) (Live r)
    (Command r) (Group r) (Detect r) (Key r) (Time r) (fields r).

Definition set_Object (x : string) (r : Response) : Response :=
  mkResponse (ID r) x (IDs r) (Objects r) (FieldNames r) (FieldValues r)
    (Count r) (Cursor r) (TTL r) (Err r) (Elapsed r) (Ok r) (Live r)
    (Command r) (Group r) (Detect r) (Key r) (Time r) (fields r).

Definition set_IDs (x : list string) (r : Response) : Response :=
  mkResponse (ID r) (Object r) x (Objects r) (FieldNames r) (FieldValues r)
    (Count r) (Cursor r) (TTL r) (Err r) (Elapsed r) (Ok r) (Live r)
    (Command r) (Group r) (Detect r) (Key r) (Time r) (fields r).

Definition set_Objects (x : list string) (r : Response) : Response :=
  mkResponse (ID r) (Object r) (IDs r) x (FieldNames r) (FieldValues r)
    (Count r) (Cursor r) (TTL r) (Err r) (Elapsed r) (Ok r) (Live r)
    (Command r) (Group r) (Detect r) (Key r) (Time r) (fields r).

Definition set_FieldNames (x : gmap string Z) (r : Response) : Response :=
  mkResponse (ID r) (Object r) (IDs r) (Objects r) x (FieldValues r)
    (Count r) (Cursor r) (TTL r) (Err r) (Elapsed r) (Ok r) (Live r)
    (Command r) (Group r) (Detect r) (Key r) (Time r) (fields r).

Definition set_FieldValues (x : list float64) (r : Response) : Response :=
  mkResponse (ID r) (Object r) (IDs r) (Objects r) (FieldNames r) x
    (Count r) (Cursor r) (TTL r) (Err r) (Elapsed r) (Ok r) (Live r)
    (Command r) (Group r) (Detect r) (Key r) (Time r) (fields r).

Definition set_Count (x : Z) (r : Response) : Response :=
  mkResponse (ID r) (Object r) (IDs r) (Objects r) (FieldNames r)
    (FieldValues r) x (Cursor r) (TTL r) (Err r) (Elapsed r) (Ok r) (Live r)
    (Command r) (Group r) (Detect r) (Key r) (Time r) (fields r).

Definition set_Cursor (x : Z) (r : Response) : Response :=
  mkResponse (ID r) (Object r) (IDs r) (Objects r) (FieldNames r)
    (FieldValues r) (Count r) x (TTL r) (Err r) (Elapsed r) (Ok r) (Live r)
    (Command r) (Group r) (Detect r) (Key r) (Time r) (fields r).

Definition set_TTL (x : float64) (r : Response) : Response :=
  mkResponse (ID r) (Object r) (IDs r) (Objects r) (FieldNames r)
    (FieldValues r) (Count r) (Cursor r) x (Err r) (Elapsed r) (Ok r)
    (Live r) (Command r) (Group r) (Detect r) (Key r) (Time r) (fields r).

Definition set_Err (x : string) (r : Response) : Response :=
  mkResponse (ID r) (Object r) (IDs r) (Objects r) (FieldNames r)
    (FieldValues r) (Count r) (Cursor r) (TTL r) x (Elapsed r) (Ok r)
    (Live r) (Command r) (Group r) (Detect r) (Key r) (Time r) (fields r).

Definition set_Elapsed (x : string) (r : Response) : Response :=
  mkResponse (ID r) (Object r) (IDs r) (Objects r) (FieldNames r)
    (FieldValues r) (Count r) (Cursor r) (TTL r) (Err r) x (Ok r) (Live r)
    (Command r) (Group r) (Detect r) (Key r) (Time r) (fields r).

Definition set_Ok (x : bool) (r : Response) : Response :=
  mkResponse (ID r) (Object r) (IDs r) (Objects r) (FieldNames r)
    (FieldValues r) (Count r) (Cursor r) (TTL r) (Err r) (Elapsed r) x
    (Live r) (Command r) (Group r) (Detect r) (Key r) (Time r) (fields r).

Definition set_Live (x : bool) (r : Response) : Response :=
  mkResponse (ID r) (Object r) (IDs r) (Objects r) (FieldNames r)
    (FieldValues r) (Count r) (Cursor r) (TTL r) (Err r) (Elapsed r) (Ok r)
    x (Command r) (Group r) (Detect r) (Key r) (Time r) (fields r).

Definition set_Command (x : string) (r : Response) : Response :=
  mkResponse (ID r) (Object r) (IDs r) (Objects r) (FieldNames r)
    (FieldValues r) (Count r) (Cursor r) (TTL r) (Err r) (Elapsed r) (Ok r)
    (Live r) x (Group r) (Detect r) (Key r) (Time r) (fields r).

Definition set_Group (x : string) (r : Response) : Response :=
  mkResponse (ID r) (Object r) (IDs r) (Objects r) (FieldNames r)
    (FieldValues r) (Count r) (Cursor r) (TTL r) (Err r) (Elapsed r) (Ok r)
    (Live r) (Command r) x (Detect r) (Key r) (Time r) (fields r).

Definition set_Detect (x : string) (r : Response) : Response :=
  mkResponse (ID r) (Object r) (IDs r) (Objects r) (FieldNames r)
    (FieldValues r) (Count r) (Cursor r) (TTL r) (Err r) (Elapsed r) (Ok r)
    (Live r) (Command r) (Group r) x (Key r) (Time r) (fields r).

Definition set_Key (x : string) (r : Response) : Response :=
  mkResponse (ID r) (Object r) (IDs r) (Objects r) (FieldNames r)
    (FieldValues r) (Count r) (Cursor r) (TTL r) (Err r) (Elapsed r) (Ok r)
    (Live r) (Command r) (Group r) (Detect r) x (Time r) (fields r).

Definition set_Time (x : time_Time) (r : Response) : Response :=
  mkResponse (ID r) (Object r) (IDs r) (Objects r) (FieldNames r)
    (FieldValues r) (Count r) (Cursor r) (TTL r) (Err r) (Elapsed r) (Ok r)
    (Live r) (Command r) (Group r) (Detect r) (Key r) x (fields r).

Definition set_fields (x : Z) (r : Response) : Response :=
  mkResponse (ID r) (Object r) (IDs r) (Objects r) (FieldNames r)
    (FieldValues r) (Count r) (Cursor r) (TTL r) (Err r) (Elapsed r) (Ok r)
    (Live r) (Command r) (Group r) (Detect r) (Key r) (Time r) x.

(** [parsefields] parses the fields array or object into a map.  The two
    closures are the iterators it passes to [ForEach]. *)
Definition parsefields_array (r : Response) (_ : string) (x : gjson.Result)
    : Response * option string :=
  let r := set_FieldNames (<[gjson.Str x := fields r]> (FieldNames r)) r in
  let r := set_fields (int64_incr (fields r)) r in
  (r, None).

Definition parsefields_object (r : Response) (l : string) (x : gjson.Result)
    : Response * option string :=
  let r := set_FieldNames (<[l := fields r]> (FieldNames r)) r in
  let r := set_fields (int64_incr (fields r)) r in
  let r := set_FieldValues (FieldValues r ++ [gjson.Num x]) r in
  (r, None).

Definition parsefields (r : Response) (v : gjson.Result) : Response * option string :=
  let r := set_FieldNames ∅ r in
  if gjson.IsArray v then gjson.ForEach v parsefields_array r
  else if gjson.IsObject v then gjson.ForEach v parsefields_object r
  else (r, Some "unknown field type").

(** The closures of the [ids] and [objects] cases. *)
Definition parse_ids (r : Response) (_ : string) (x : gjson.Result)
    : Response * option string :=
  (set_IDs (IDs r ++ [gjson.Str x]) r, None).

Definition parse_objects (r : Response) (_ : string) (x : gjson.Result)
    : Response * option string :=
  (set_Objects (Objects r ++ [gjson.Raw x]) r, None).

(** [parse] is the iterator that [UnmarshalText] runs over the reply. *)
Definition parse (r : Response) (k : string) (v : gjson.Result) : Response * option string :=
  if String.eqb k "ok" then (set_Ok (gjson.Bool v) r, None)
  else if String.eqb k "id" then (set_ID (gjson.Str v) r, None)
  else if String.eqb k "object" then
    if gjson.ResultType_eqb (gjson.Type_ v) gjson.TJSON
    then (set_Object (gjson.Raw v) r, None)
    else (set_Object (gjson.Str v) r, None)
  else if String.eqb k "ids" then gjson.ForEach v parse_ids r
  else if String.eqb k "objects" then gjson.ForEach v parse_objects r
  else if String.eqb k "fields" then parsefields r v
  else if String.eqb k "count" then (set_Count (int64_of_float64 (gjson.Num v)) r, None)
  else if String.eqb k "cursor" then (set_Cursor (int64_of_float64 (gjson.Num v)) r, None)
  else if String.eqb k "ttl" then (set_TTL (gjson.Num v) r, None)
  else if String.eqb k "err" then (set_Err (gjson.Str v) r, None)
  else if String.eqb k "elapsed" then (set_Elapsed (gjson.Str v) r, None)
  else if String.eqb k "live" then (set_Live (gjson.Bool v) r, None)
  else if String.eqb k "command" then (set_Command (gjson.Str v) r, None)
  else if String.eqb k "group" then (set_Group (gjson.Str v) r, None)
  else if String.eqb k "detect" then (set_Detect (gjson.Str v) r, None)
  else if String.eqb k "key" then (set_Key (gjson.Str v) r, None)
  else if String.eqb k "time" then
    (set_Time (fst (time_Parse RFC3339Nano (gjson.Str v))) r, None)
  else (r, Some "unknown response value").

(** [UnmarshalText] unmarshals a database response into [r].  The deferred
    [recover] turns the panic of an iterator into the returned error; a
    panic leaves in [r] what was assigned before it. *)
Definition UnmarshalText (r : Response) (b : gjson.bytes) : Response * option error :=
  if negb (gjson.ValidBytes b)
  then (r, Some (newError None "error unmarshaling response: not valid JSON"))
  else
    match gjson.ForEach (gjson.ParseBytes b) parse r with
    | (r', Some s) => (r', Some (newErrorf None "error unmarshaling response: " s))
    | (r', None) => (r', None)
    end.


(** ** db.go *)

(** Database errors. *)
Definition errUninitialized : error := newError None "database not initialized".
Definition errResponse : error := newError None "received error".
Definition errArgs : error := newError None "invalid arguments".

(** [Database] is the primary object for interacting with the database;
    [pool] is [None] for the nil pointer. *)
Record Database : Type := mkDatabase { pool : option Pool }.

(** [new(Database)] *)
Definition new_Database : Database := mkDatabase None.

(** [p.Do(radix.Cmd(r, cmd, args...))] *)
Definition pool_Do (p : Pool) (r : Response) (cmd : string) (args : list string)
    (n : Network) : Response * option error * Network :=
  let n' := mkNetwork (sent n ++ [cmd :: args]) (closed n) in
  match respond p (sent n) (cmd :: args) with
  | Failure e => (r, Some e, n')
  | Frame b => let (r', err) := UnmarshalText r b in (r', err, n')
  end.

(** [p.Close()] *)
Definition pool_Close (p : Pool) (n : Network) : option error * Network :=
  (closeResult p, mkNetwork (sent n) (S (closed n))).

(** A variadic parameter is a slice: [None] when the call gives no argument
    for it (the slice is nil), [Some l] otherwise. *)
Definition slice := option (list string).

(** [runcmd] runs a command against the database. *)
Definition runcmd (db : Database) (cmd : string) (args : slice) (n : Network)
    : Outcome (option Response * option error) * Network :=
  match args with
  | None => (Returns (None, Some errArgs), n)
  | Some args =>
      match pool db with
      | None => (Panics "invalid memory address or nil pointer dereference", n)
      | Some p =>
          let '(r, err, n') := pool_Do p new_Response cmd args n in
          match err with
          | Some e => (Returns (None, Some (newError (Some e) "database error")), n')
          | None =>
              if negb (Ok r)
              then (Returns (None, Some (Errorf_w_s errResponse (Err r))), n')
              else (Returns (Some r, None), n')
          end
      end
  end.

(** [Close] closes the database connection. *)
Definition Close (db : Database) (n : Network) : Outcome (option error) * Network :=
  match pool db with
  | None => (Returns (Some errUninitialized), n)
  | Some p =>
      let (err, n') := pool_Close p n in
      match err with
      | Some e => (Returns (Some (newError (Some e) "error closing database connection")), n')
      | None => (Returns None, n')
      end
  end.

(** The tail shared by the commands that return an error only. *)
Definition error_only (res : Outcome (option Response * option error) * Network)
    : Outcome (option error) * Network :=
  match res with
  | (Returns (_, Some e), n') => (Returns (Some e), n')
  | (Returns (_, None), n') => (Returns None, n')
  | (Panics msg, n') => (Panics msg, n')
  end.

(** The tail shared by the commands that return a response. *)
Definition response_or_error (res : Outcome (option Response * option error) * Network)
    : Outcome (option Response * option error) * Network :=
  match res with
  | (Returns (_, Some e), n') => (Returns (None, Some e), n')
  | (Returns (r, None), n') => (Returns (r, None), n')
  | (Panics msg, n') => (Panics msg, n')
  end.

(** [Set] saves an object to the database. *)
Definition Set_ (db : Database) (key id : string) (args : slice) (n : Network)
    : Outcome (option error) * Network :=
  match pool db with
  | None => (Returns (Some errUninitialized), n)
  | Some _ =>
      match args with
      | None => (Returns (Some errArgs), n)
      | Some args =>
          let cmdargs := [key; id] ++ args in
          error_only (runcmd db "SET" (Some cmdargs) n)
      end
  end.

(** [Get] returns the requested entry as a response object, or nil if the
    object is not found. *)
Definition Get (db : Database) (key id : string) (args : slice) (n : Network)
    : Outcome (option Response * option error) * Network :=
  match pool db with
  | None => (Returns (None, Some errUninitialized), n)
  | Some _ =>
      let cmdargs := [key; id] in
      let cmdargs := match args with Some args => cmdargs ++ args | None => cmdargs end in
      match runcmd db "GET" (Some cmdargs) n with
      | (Returns (r, Some err), n') =>
          if String.eqb (Error err) "received error: id not found"
          then (Returns (None, None), n')
          else (Returns (None, Some err), n')
      | (Returns (r, None), n') => (Returns (r, None), n')
      | (Panics msg, n') => (Panics msg, n')
      end
  end.

(** [Scan] iterates through a key returning a set of results. *)
Definition Scan (db : Database) (key : string) (args : slice) (n : Network)
    : Outcome (option Response * option error) * Network :=
  match pool db with
  | None => (Returns (None, Some errUninitialized), n)
  | Some _ =>
      let cmdargs := [key] in
      let cmdargs := match args with Some args => cmdargs ++ args | None => cmdargs end in
      response_or_error (runcmd db "SCAN" (Some cmdargs) n)
  end.

(** [Search] iterates through the string values of a key returning a set of
    results. *)
Definition Search (db : Database) (key : string) (args : slice) (n : Network)
    : Outcome (option Response * option error) * Network :=
  match pool db with
  | None => (Returns (None, Some errUninitialized), n)
  | Some _ =>
      let cmdargs := [key] in
      let cmdargs := match args with Some args => cmdargs ++ args | None => cmdargs end in
      response_or_error (runcmd db "SEARCH" (Some cmdargs) n)
  end.

(** [Del] deletes the requested entry. *)
Definition Del (db : Database) (key id : string) (n : Network)
    : Outcome (option error) * Network :=
  match pool db with
  | None => (Returns (Some errUninitialized), n)
  | Some _ => error_only (runcmd db "DEL" (Some [key; id]) n)
  end.

(** [PDel] deletes any entries matching the supplied pattern. *)
Definition PDel (db : Database) (key pattern : string) (n : Network)
    : Outcome (option error) * Network :=
  match pool db with
  | None => (Returns (Some errUninitialized), n)
  | Some _ => error_only (runcmd db "PDEL" (Some [key; pattern]) n)
  end.

(** [strconv.Itoa] *)
Definition Itoa (i : Z) : string := pretty i.

(** [Expire] sets or resets the timeout value on the requested entry. *)
Definition Expire (db : Database) (key id : string) (seconds : Z) (n : Network)
    : Outcome (option error) * Network :=
  match pool db with
  | None => (Returns (Some errUninitialized), n)
  | Some _ => error_only (runcmd db "EXPIRE" (Some [key; id; Itoa seconds]) n)
  end.

(** [Persist] removes the timeout value on the requested entry. *)
Definition Persist (db : Database) (key id : string) (n : Network)
    : Outcome (option error) * Network :=
  match pool db with
  | None => (Returns (Some errUninitialized), n)
  | Some _ => error_only (runcmd db "PERSIST" (Some [key; id]) n)
  end.

(** [TTL] returns the timeout value on the requested entry. *)
Definition TTL_ (db : Database) (key id : string) (n : Network)
    : Outcome (float64 * option error) * Network :=
  match pool db with
  | None => (Returns (float64_zero, Some errUninitialized), n)
  | Some _ =>
      match runcmd db "TTL" (Some [key; id]) n with
      | (Returns (_, Some e), n') => (Returns (float64_zero, Some e), n')
      | (Returns (Some r, None), n') => (Returns (TTL r, None), n')
      | (Returns (None, None), n') =>
          (Panics "invalid memory address or nil pointer dereference", n')
      | (Panics msg, n') => (Panics msg, n')
      end
  end.

(** [radix.Dial]: it fails, or yields a connection.  A connection answers
    and is closed the way a pool of one is. *)
Inductive Dial : Type :=
| Dialed (conn : Pool)
| DialFailed (e : error).

(** [connectJSON] creates a connection and sets the output mode to JSON. *)
Definition connectJSON (d : Dial) (n : Network)
    : (option Pool * option error) * Network :=
  match d with
  | DialFailed e => ((None, Some (newError (Some e) "error connecting to database")), n)
  | Dialed conn =>
      let '(resp, err, n') := pool_Do conn new_Response "OUTPUT" ["json"] n in
      match err with
      | Some e =>
          let (_, n'') := pool_Close conn n' in
          ((None, Some (newError (Some e) "error setting output to JSON")), n'')
      | None =>
          if negb (Ok resp)
          then
            let (_, n'') := pool_Close conn n' in
            ((None, Some (Errorf_w_s errResponse (Err resp))), n'')
          else ((Some conn, None), n')
      end
  end.

(** ** The files of 2020

    [src/response.go] and the older [db.go] differ from the files above in
    the errors they build: values of [errors.New], and no wrapping of what
    the pool reports. *)

Definition errInvalidJSON : error := foreignError "received invalid JSON".
Definition errDecode : error := foreignError "error decoding response".

Definition decodefields_v2020 (r : Response) (v : gjson.Result) : Response * option string :=
  let r := set_FieldNames ∅ r in
  if gjson.IsArray v then gjson.ForEach v parsefields_array r
  else if gjson.IsObject v then gjson.ForEach v parsefields_object r
  else (r, Some "unknown field type").

Definition decode_v2020 (r : Response) (k : string) (v : gjson.Result)
    : Response * option string :=
  if String.eqb k "ok" then (set_Ok (gjson.Bool v) r, None)
  else if String.eqb k "id" then (set_ID (gjson.Str v) r, None)
  else if String.eqb k "object" then
    if gjson.ResultType_eqb (gjson.Type_ v) gjson.TJSON
    then (set_Object (gjson.Raw v) r, None)
    else (set_Object (gjson.Str v) r, None)
  else if String.eqb k "ids" then gjson.ForEach v parse_ids r
  else if String.eqb k "objects" then gjson.ForEach v parse_objects r
  else if String.eqb k "fields" then decodefields_v2020 r v
  else if String.eqb k "count" then (set_Count (int64_of_float64 (gjson.Num v)) r, None)
  else if String.eqb k "cursor" then (set_Cursor (int64_of_float64 (gjson.Num v)) r, None)
  else if String.eqb k "ttl" then (set_TTL (gjson.Num v) r, None)
  else if String.eqb k "err" then (set_Err (gjson.Str v) r, None)
  else if String.eqb k "elapsed" then (set_Elapsed (gjson.Str v) r, None)
  else if String.eqb k "live" then (set_Live (gjson.Bool v) r, None)
  else if String.eqb k "command" then (set_Command (gjson.Str v) r, None)
  else if String.eqb k "group" then (set_Group (gjson.Str v) r, None)
  else if String.eqb k "detect" then (set_Detect (gjson.Str v) r, None)
  else if String.eqb k "key" then (set_Key (gjson.Str v) r, None)
  else if String.eqb k "time" then
    (set_Time (fst (time_Parse RFC3339Nano (gjson.Str v))) r, None)
  else (r, Some "unknown response value").

(** [UnmarshalText] of [src/response.go]: the recovered panic becomes
    [fmt.Errorf("%w: %s", errDecode, text)]. *)
Definition UnmarshalText_v2020 (r : Response) (b : gjson.bytes) : Response * option error :=
  if negb (gjson.ValidBytes b)
  then (r, Some errInvalidJSON)
  else
    match gjson.ForEach (gjson.ParseBytes b) decode_v2020 r with
    | (r', Some s) => (r', Some (Errorf_w_s errDecode s))
    | (r', None) => (r', None)
    end.

Definition errResponse_v2020 : error := foreignError "received error".
Definition errArgs_v2020 : error := foreignError "invalid arguments".
Definition errUninitialized_v2020 : error := foreignError "database not initialized".

(** [p.Do(radix.Cmd(r, cmd, args...))] with the decoder of 2020. *)
Definition pool_Do_v2020 (p : Pool) (r : Response) (cmd : string) (args : list string)
    (n : Network) : Response * option error * Network :=
  let n' := mkNetwork (sent n ++ [cmd :: args]) (closed n) in
  match respond p (sent n) (cmd :: args) with
  | Failure e => (r, Some e, n')
  | Frame b => let (r', err) := UnmarshalText_v2020 r b in (r', err, n')
  end.

(** [runcmd] of the older [db.go]: what the pool reports is returned as it
    is. *)
Definition runcmd_v2020 (db : Database) (cmd : string) (args : slice) (n : Network)
    : Outcome (option Response * option error) * Network :=
  match args with
  | None => (Returns (None, Some errArgs_v2020), n)
  | Some args =>
      match pool db with
      | None => (Panics "invalid memory address or nil pointer dereference", n)
      | Some p =>
          let '(r, err, n') := pool_Do_v2020 p new_Response cmd args n in
          match err with
          | Some e => (Returns (None, Some e), n')
          | None =>
              if negb (Ok r)
              then (Returns (None, Some (Errorf_w_s errResponse_v2020 (Err r))), n')
              else (Returns (Some r, None), n')
          end
      end
  end.

(** [Get] of the older [db.go]: the text it compares with has no prefix. *)
Definition Get_v2020 (db : Database) (key id : string) (args : slice) (n : Network)
    : Outcome (option Response * option error) * Network :=
  match pool db with
  | None => (Returns (None, Some errUninitialized_v2020), n)
  | Some _ =>
      let cmdargs := [key; id] in
      let cmdargs := match args with Some args => cmdargs ++ args | None => cmdargs end in
      match runcmd_v2020 db "GET" (Some cmdargs) n with
      | (Returns (r, Some err), n') =>
          if String.eqb (Error err) "id not found"
          then (Returns (None, None), n')
          else (Returns (None, Some err), n')
      | (Returns (r, None), n') => (Returns (r, None), n')
      | (Panics msg, n') => (Panics msg, n')
      end
  end.

(** ** Vocabulary of the properties *)

(** The keys [parse] has a case for. *)
Definition known_keys : list string :=
  ["ok"; "id"; "object"; "ids"; "objects"; "fields"; "count"; "cursor"; "ttl";
   "err"; "elapsed"; "live"; "command"; "group"; "detect"; "key"; "time"].

Definition recognized (k : string) : bool := existsb (String.eqb k) known_keys.

(** The three ways a decode fails, and the error value of each. *)
Inductive ErrorKind : Set := InvalidInput | UnknownField | UnknownFieldType.

Definition kind_error (k : ErrorKind) : error :=
  match k with
  | InvalidInput => newError None "error unmarshaling response: not valid JSON"
  | UnknownField => newError None "error unmarshaling response: unknown response value"
  | UnknownFieldType => newError None "error unmarshaling response: unknown field type"
  end.

(** The text of each kind after ["error unmarshaling response: "]; for the
    last two it is the value the iterator panics with. *)
Definition panic_text (e : ErrorKind) : string :=
  match e with
  | InvalidInput => "not valid JSON"
  | UnknownField => "unknown response value"
  | UnknownFieldType => "unknown field type"
  end.

(** The failure conditions, over the pairs that [gjson] hands to the
    iterator: a key that is not recognized, or a [fields] value that is
    neither an array nor an object; the first pair at fault, in document
    order, decides.  The key is empty for the elements of an array and for
    a lone value, so that these pairs are at fault too. *)
Definition offence (k : string) (v : gjson.Result) : option ErrorKind :=
  if negb (recognized k) then Some UnknownField
  else if String.eqb k "fields" && negb (gjson.IsArray v || gjson.IsObject v)
  then Some UnknownFieldType
  else None.

Fixpoint first_offence (items : list (string * gjson.Result)) : option ErrorKind :=
  match items with
  | [] => None
  | (k, v) :: rest =>
      match offence k v with
      | Some e => Some e
      | None => first_offence rest
      end
  end.

Definition decode_failure (b : gjson.bytes) : option ErrorKind :=
  if negb (gjson.ValidBytes b) then Some InvalidInput
  else first_offence (gjson.entries (gjson.ParseBytes b)).

(** The fields of the model that the case of key [k] writes agree in [r]
    and [r']. *)
Definition same_field (k : string) (r r' : Response) : Prop :=
  if String.eqb k "ok" then Ok r = Ok r'
  else if String.eqb k "id" then ID r = ID r'
  else if String.eqb k "object" then Object r = Object r'
  else if String.eqb k "ids" then IDs r = IDs r'
  else if String.eqb k "objects" then Objects r = Objects r'
  else if String.eqb k "fields" then
    FieldNames r = FieldNames r' /\ FieldValues r = FieldValues r' /\ fields r = fields r'
  else if String.eqb k "count" then Count r = Count r'
  else if String.eqb k "cursor" then Cursor r = Cursor r'
  else if String.eqb k "ttl" then TTL r = TTL r'
  else if String.eqb k "err" then Err r = Err r'
  else if String.eqb k "elapsed" then Elapsed r = Elapsed r'
  else if String.eqb k "live" then Live r = Live r'
  else if String.eqb k "command" then Command r = Command r'
  else if String.eqb k "group" then Group r = Group r'
  else if String.eqb k "detect" then Detect r = Detect r'
  else if String.eqb k "key" then Key r = Key r'
  else if String.eqb k "time" then Time r = Time r'
  else True.

(** The names a [fields] value lists, in its order. *)
Definition field_names (v : gjson.Result) : list string :=
  match v with
  | gjson.JArray _ elems => map gjson.Str elems
  | gjson.JObject _ members => map fst members
  | _ => []
  end.

(** The numbers a [fields] object pairs with its names. *)
Definition field_numbers (v : gjson.Result) : list float64 :=
  match v with
  | gjson.JObject _ members => map (fun m => gjson.Num (snd m)) members
  | _ => []
  end.

(** The counter after [n] increments. *)
Fixpoint advance (n : nat) (c : Z) : Z :=
  match n with
  | O => c
  | S n' => advance n' (int64_incr c)
  end.

(** The map after each name, in turn, got the counter's value. *)
Fixpoint assign (names : list string) (c : Z) (m : gmap string Z) : gmap string Z :=
  match names with
  | [] => m
  | x :: rest => assign rest (int64_incr c) (<[x := c]> m)
  end.

(** What the members of a reply contribute to [IDs], to [Objects] and to
    the number of names counted. *)
Definition ids_of (items : list (string * gjson.Result)) : list string :=
  flat_map (fun kv => if String.eqb (fst kv) "ids"
                      then map (fun e => gjson.Str (snd e)) (gjson.entries (snd kv))
                      else []) items.

Definition objects_of (items : list (string * gjson.Result)) : list string :=
  flat_map (fun kv => if String.eqb (fst kv) "objects"
                      then map (fun e => gjson.Raw (snd e)) (gjson.entries (snd kv))
                      else []) items.

Definition names_counted (items : list (string * gjson.Result)) : nat :=
  length (flat_map (fun kv => if String.eqb (fst kv) "fields"
                              then field_names (snd kv) else []) items).

(** A call returned, with a response that reports ok and no error, or with
    an error and no response. *)
Definition response_xor_error (o : Outcome (option Response * option error)) : Prop :=
  match o with
  | Returns (Some r, None) => Ok r = true
  | Returns (None, Some _) => True
  | _ => False
  end.

(** The error texts of 2020 for the three kinds. *)
Definition text_v2020 (e : ErrorKind) : string :=
  match e with
  | InvalidInput => "received invalid JSON"
  | UnknownField => "error decoding response: unknown response value"
  | UnknownFieldType => "error decoding response: unknown field type"
  end.

(** ** The iteration *)

Lemma iterate_app {S : Type} (it : S -> string -> gjson.Result -> S * option string)
    (a b : list (string * gjson.Result)) (s : S) :
  gjson.iterate it (a ++ b) s =
  match gjson.iterate it a s with
  | (s', None) => gjson.iterate it b s'
  | (s', Some msg) => (s', Some msg)
  end.
Proof.
  revert s. induction a as [|[k v] a IH]; intros s; simpl; [reflexivity|].
  destruct (it s k v) as [s' [msg|]]; [reflexivity|apply IH].
Qed.

(** The iterators of [ids] and [objects] append one string per entry. *)
Lemma iterate_parse_ids (items : list (string * gjson.Result)) (r : Response) :
  gjson.iterate parse_ids items r =
  (set_IDs (IDs r ++ map (fun e => gjson.Str (snd e)) items) r, None).
Proof.
  revert r. induction items as [|[k v] items IH]; intros r; simpl.
  - rewrite app_nil_r. destruct r; reflexivity.
  - rewrite IH. destruct r; simpl. unfold set_IDs; simpl.
    rewrite <- app_assoc. reflexivity.
Qed.

Lemma iterate_parse_objects (items : list (string * gjson.Result)) (r : Response) :
  gjson.iterate parse_objects items r =
  (set_Objects (Objects r ++ map (fun e => gjson.Raw (snd e)) items) r, None).
Proof.
  revert r. induction items as [|[k v] items IH]; intros r; simpl.
  - rewrite app_nil_r. destruct r; reflexivity.
  - rewrite IH. destruct r; simpl. unfold set_Objects; simpl.
    rewrite <- app_assoc. reflexivity.
Qed.

(** The iterators of [parsefields] in closed form. *)
Lemma iterate_parsefields_array (elems : list gjson.Result) (r : Response) :
  gjson.iterate parsefields_array (map (fun x => (EmptyString, x)) elems) r =
  (set_fields (advance (length elems) (fields r))
     (set_FieldNames (assign (map gjson.Str elems) (fields r) (FieldNames r)) r), None).
Proof.
  revert r. induction elems as [|x elems IH]; intros r; simpl.
  - destruct r; reflexivity.
  - rewrite IH. destruct r; reflexivity.
Qed.

Lemma iterate_parsefields_object (members : list (string * gjson.Result)) (r : Response) :
  gjson.iterate parsefields_object members r =
  (set_FieldValues (FieldValues r ++ map (fun m => gjson.Num (snd m)) members)
     (set_fields (advance (length members) (fields r))
        (set_FieldNames (assign (map fst members) (fields r) (FieldNames r)) r)), None).
Proof.
  revert r. induction members as [|[l x] members IH]; intros r; simpl.
  - rewrite app_nil_r. destruct r; reflexivity.
  - rewrite IH. destruct r; simpl. unfold set_FieldValues; simpl.
    rewrite <- app_assoc. reflexivity.
Qed.

(** [parsefields] on an array or an object: a new map, the names assigned
    from the counter's current value on, the numbers appended. *)
Lemma parsefields_ok (r : Response) (v : gjson.Result) :
  gjson.IsArray v || gjson.IsObject v = true ->
  parsefields r v =
  (set_FieldValues (FieldValues r ++ field_numbers v)
     (set_fields (advance (length (field_names v)) (fields r))
        (set_FieldNames (assign (field_names v) (fields r) ∅) r)), None).
Proof.
  intros Hv. unfold parsefields, gjson.ForEach.
  destruct v; simpl in Hv; try discriminate; simpl.
  - rewrite iterate_parsefields_array. rewrite length_map, app_nil_r.
    destruct r; reflexivity.
  - rewrite iterate_parsefields_object. rewrite length_map.
    destruct r; reflexivity.
Qed.

Lemma parsefields_bad (r : Response) (v : gjson.Result) :
  gjson.IsArray v || gjson.IsObject v = false ->
  parsefields r v = (set_FieldNames ∅ r, Some "unknown field type").
Proof.
  intros Hv. unfold parsefields.
  destruct v; simpl in Hv; try discriminate; reflexivity.
Qed.

(** ** One step of [parse] *)

(** Case analysis on the key, in the order of the [switch]. *)
Ltac on_key k :=
  repeat match goal with
         | |- context [String.eqb k ?lit] =>
             destruct (String.eqb_spec k lit) as [->|?]; simpl
         end.

Lemma kind_error_text (e : ErrorKind) :
  e <> InvalidInput ->
  newErrorf None "error unmarshaling response: " (panic_text e) = kind_error e.
Proof. destruct e; intros H; [contradiction|reflexivity|reflexivity]. Qed.

Lemma parse_object (r : Response) (v : gjson.Result) :
  parse r "object" v =
  (set_Object (match gjson.Type_ v with gjson.TJSON => gjson.Raw v | _ => gjson.Str v end) r,
   None).
Proof. destruct v; reflexivity. Qed.

Lemma parse_time (r : Response) (v : gjson.Result) :
  parse r "time" v = (set_Time (fst (time_Parse RFC3339Nano (gjson.Str v))) r, None).
Proof. reflexivity. Qed.

Lemma parse_fields (r : Response) (v : gjson.Result) :
  parse r "fields" v = parsefields r v.
Proof. reflexivity. Qed.

Lemma parse_ids_key (r : Response) (v : gjson.Result) :
  parse r "ids" v =
  (set_IDs (IDs r ++ map (fun e => gjson.Str (snd e)) (gjson.entries v)) r, None).
Proof. apply iterate_parse_ids. Qed.

Lemma parse_objects_key (r : Response) (v : gjson.Result) :
  parse r "objects" v =
  (set_Objects (Objects r ++ map (fun e => gjson.Raw (snd e)) (gjson.entries v)) r, None).
Proof. apply iterate_parse_objects. Qed.

(** A step panics exactly at an offence, with the text of its kind. *)
Lemma parse_panics (r : Response) (k : string) (v : gjson.Result) :
  snd (parse r k v) = panic_text <$> offence k v.
Proof.
  unfold parse, offence, recognized, known_keys, gjson.ForEach. simpl existsb.
  on_key k; try reflexivity.
  - destruct (gjson.ResultType_eqb _ _); reflexivity.
  - rewrite iterate_parse_ids. reflexivity.
  - rewrite iterate_parse_objects. reflexivity.
  - destruct (gjson.IsArray v || gjson.IsObject v) eqn:Hv; simpl.
    + rewrite parsefields_ok by exact Hv. reflexivity.
    + rewrite parsefields_bad by exact Hv. reflexivity.
Qed.

(** A key that is not recognized: a panic, and nothing written. *)
Lemma parse_unknown (r : Response) (k : string) (v : gjson.Result) :
  recognized k = false -> parse r k v = (r, Some "unknown response value").
Proof.
  unfold parse, recognized, known_keys. simpl existsb.
  on_key k; intros Hk; try discriminate Hk. reflexivity.
Qed.

Lemma same_field_refl (k : string) (r : Response) : same_field k r r.
Proof. unfold same_field. on_key k; auto. Qed.

Lemma same_field_trans (k : string) (r1 r2 r3 : Response) :
  same_field k r1 r2 -> same_field k r2 r3 -> same_field k r1 r3.
Proof.
  unfold same_field. on_key k; try congruence; try tauto.
  intros (? & ? & ?) (? & ? & ?). repeat split; congruence.
Qed.

(** A step writes the fields of its own key only, panic or not. *)
Lemma parse_frame (r : Response) (k k' : string) (v : gjson.Result) :
  k <> k' -> same_field k' r (fst (parse r k v)).
Proof.
  intros Hne. unfold parse, gjson.ForEach.
  on_key k;
    rewrite ?iterate_parse_ids, ?iterate_parse_objects;
    try (destruct (gjson.IsArray v || gjson.IsObject v) eqn:Hv;
         [rewrite parsefields_ok by exact Hv|rewrite parsefields_bad by exact Hv]);
    try destruct (gjson.ResultType_eqb _ _);
    destruct r; unfold same_field; simpl;
    on_key k'; try reflexivity; try contradiction; auto.
Qed.

(** ** A whole reply *)

Lemma first_offence_app (a b : list (string * gjson.Result)) :
  first_offence (a ++ b) =
  match first_offence a with Some e => Some e | None => first_offence b end.
Proof.
  induction a as [|[k v] a IH]; simpl; [reflexivity|].
  destruct (offence k v); [reflexivity|exact IH].
Qed.

Lemma iterate_parse_panics (items : list (string * gjson.Result)) (r : Response) :
  snd (gjson.iterate parse items r) = panic_text <$> first_offence items.
Proof.
  revert r. induction items as [|[k v] items IH]; intros r; simpl; [reflexivity|].
  pose proof (parse_panics r k v) as Hstep.
  destruct (parse r k v) as [r' [msg|]]; simpl in Hstep;
    destruct (offence k v); simpl in *; try discriminate.
  - exact Hstep.
  - apply IH.
Qed.

Lemma iterate_parse_frame (items : list (string * gjson.Result)) (k' : string)
    (r : Response) :
  k' ∉ map fst items -> same_field k' r (fst (gjson.iterate parse items r)).
Proof.
  revert r. induction items as [|[k v] items IH]; intros r Hnotin; simpl.
  - apply same_field_refl.
  - simpl in Hnotin. apply not_elem_of_cons in Hnotin as [Hne Hnotin].
    pose proof (parse_frame r k k' v (not_eq_sym Hne)) as Hstep.
    destruct (parse r k v) as [r' [msg|]]; simpl in *; [exact Hstep|].
    eapply same_field_trans; [exact Hstep|apply IH; exact Hnotin].
Qed.

(** An acceptable prefix is processed to its end, and the rest goes on from
    the model it leaves. *)
Lemma iterate_parse_prefix (a b : list (string * gjson.Result)) (r : Response) :
  first_offence a = None ->
  gjson.iterate parse (a ++ b) r = gjson.iterate parse b (fst (gjson.iterate parse a r)).
Proof.
  intros Ha. rewrite iterate_app.
  pose proof (iterate_parse_panics a r) as Hp. rewrite Ha in Hp.
  destruct (gjson.iterate parse a r) as [r' [msg|]]; simpl in *; [discriminate|reflexivity].
Qed.

Lemma first_offence_kind (items : list (string * gjson.Result)) :
  first_offence items <> Some InvalidInput.
Proof.
  induction items as [|[k v] items IH]; simpl; [discriminate|].
  unfold offence.
  destruct (negb (recognized k)); [discriminate|].
  destruct (String.eqb k "fields" && _); [discriminate|exact IH].
Qed.

Lemma UnmarshalText_valid (r : Response) (b : gjson.bytes) :
  gjson.ValidBytes b = true ->
  UnmarshalText r b =
  (fst (gjson.iterate parse (gjson.entries (gjson.ParseBytes b)) r),
   kind_error <$> first_offence (gjson.entries (gjson.ParseBytes b))).
Proof.
  intros Hvalid. unfold UnmarshalText, gjson.ForEach. rewrite Hvalid. simpl.
  pose proof (iterate_parse_panics (gjson.entries (gjson.ParseBytes b)) r) as Hp.
  pose proof (first_offence_kind (gjson.entries (gjson.ParseBytes b))) as Hk.
  destruct (gjson.iterate parse _ r) as [r' [msg|]]; simpl in *.
  - destruct (first_offence _) as [e|]; [|discriminate]. simpl in *.
    injection Hp as ->. f_equal. f_equal.
    apply kind_error_text. congruence.
  - destruct (first_offence _); [discriminate|reflexivity].
Qed.

Lemma UnmarshalText_invalid (r : Response) (b : gjson.bytes) :
  gjson.ValidBytes b = false ->
  UnmarshalText r b = (r, Some (kind_error InvalidInput)).
Proof. intros Hb. unfold UnmarshalText. rewrite Hb. reflexivity. Qed.

(** ** The counter and the name map *)

Lemma int64_wrap_small (z : Z) :
  (int64_min <= z <= int64_max)%Z -> int64_wrap z = z.
Proof.
  unfold int64_min, int64_max, int64_wrap. intros Hz.
  rewrite Z.mod_small by lia. lia.
Qed.

Lemma advance_small (n : nat) (c : Z) :
  (0 <= c)%Z -> (c + Z.of_nat n < 2 ^ 63)%Z -> advance n c = (c + Z.of_nat n)%Z.
Proof.
  revert c. induction n as [|n IH]; intros c Hc Hn; simpl advance.
  - lia.
  - unfold int64_incr. rewrite int64_wrap_small by (unfold int64_min, int64_max; lia).
    rewrite IH by lia. lia.
Qed.

Lemma assign_notin (names : list string) (c : Z) (m : gmap string Z) (x : string) :
  x ∉ names -> assign names c m !! x = m !! x.
Proof.
  revert c m. induction names as [|y names IH]; intros c m Hx; simpl; [reflexivity|].
  apply not_elem_of_cons in Hx as [Hne Hx].
  rewrite IH by exact Hx. apply lookup_insert_ne. congruence.
Qed.

(** With distinct names and no overflow, the name at position [i] gets the
    counter's value plus [i]. *)
Lemma assign_lookup (names : list string) (c : Z) (m : gmap string Z)
    (i : nat) (x : string) :
  NoDup names -> (0 <= c)%Z -> (c + Z.of_nat (length names) < 2 ^ 63)%Z ->
  names !! i = Some x ->
  assign names c m !! x = Some (c + Z.of_nat i)%Z.
Proof.
  revert c m i. induction names as [|y names IH]; intros c m i Hnd Hc Hn Hi.
  - discriminate.
  - apply NoDup_cons in Hnd as [Hy Hnd]. simpl in Hn. simpl assign.
    assert (Hincr : int64_incr c = (c + 1)%Z).
    { unfold int64_incr. apply int64_wrap_small. unfold int64_min, int64_max. lia. }
    destruct i as [|i]; simpl in Hi.
    + injection Hi as ->. rewrite assign_notin by exact Hy.
      rewrite lookup_insert_eq. f_equal. lia.
    + rewrite Hincr. rewrite (IH (c + 1)%Z _ i) by (try assumption; lia).
      f_equal. lia.
Qed.

(** Whatever the names, a value in the map is the counter's value at some
    position of its name, or was in the map before. *)
Lemma assign_lookup_inv (names : list string) (c : Z) (m : gmap string Z)
    (x : string) (j : Z) :
  (0 <= c)%Z -> (c + Z.of_nat (length names) < 2 ^ 63)%Z ->
  assign names c m !! x = Some j ->
  (exists i : nat, names !! i = Some x /\ j = (c + Z.of_nat i)%Z) \/ m !! x = Some j.
Proof.
  revert c m. induction names as [|y names IH]; intros c m Hc Hn Hj; simpl in *.
  - right. exact Hj.
  - assert (Hincr : int64_incr c = (c + 1)%Z).
    { unfold int64_incr. apply int64_wrap_small. unfold int64_min, int64_max. lia. }
    rewrite Hincr in Hj.
    apply IH in Hj as [(i & Hi & ->)|Hj]; try lia.
    + left. exists (S i). split; [exact Hi|lia].
    + destruct (decide (y = x)) as [->|Hne].
      * rewrite lookup_insert_eq in Hj. injection Hj as <-.
        left. exists 0%nat. split; [reflexivity|lia].
      * rewrite lookup_insert_ne in Hj by exact Hne. right. exact Hj.
Qed.

Lemma assign_dom (names : list string) (c : Z) (m : gmap string Z) :
  dom (assign names c m) = list_to_set names ∪ dom m.
Proof.
  revert c m. induction names as [|y names IH]; intros c m; simpl.
  - set_solver.
  - rewrite IH, dom_insert_L. set_solver.
Qed.

Lemma assign_size (names : list string) (c : Z) :
  NoDup names -> size (assign names c ∅) = length names.
Proof.
  intros Hnd. rewrite <- size_dom, assign_dom, dom_empty_L, union_empty_r_L.
  apply size_list_to_set. exact Hnd.
Qed.

(** ** Around one key of a reply *)

Lemma names_counted_app (a b : list (string * gjson.Result)) :
  names_counted (a ++ b) = (names_counted a + names_counted b)%nat.
Proof. unfold names_counted. rewrite flat_map_app, length_app. reflexivity. Qed.

Lemma ids_of_app (a b : list (string * gjson.Result)) :
  ids_of (a ++ b) = ids_of a ++ ids_of b.
Proof. apply flat_map_app. Qed.

Lemma objects_of_app (a b : list (string * gjson.Result)) :
  objects_of (a ++ b) = objects_of a ++ objects_of b.
Proof. apply flat_map_app. Qed.

Lemma offence_fields (v : gjson.Result) :
  offence "fields" v = None -> gjson.IsArray v || gjson.IsObject v = true.
Proof.
  unfold offence. simpl.
  destruct (gjson.IsArray v || gjson.IsObject v); [reflexivity|discriminate].
Qed.

(** A reply cut at a key that is acceptable and reached: the model is the
    one the keys after it leave, started from the model of that key's step,
    and an error can only come from those later keys. *)
Lemma decode_split (r : Response) (b : gjson.bytes)
    (pre post : list (string * gjson.Result)) (k : string) (v : gjson.Result) :
  gjson.ValidBytes b = true ->
  gjson.entries (gjson.ParseBytes b) = pre ++ (k, v) :: post ->
  first_offence pre = None ->
  offence k v = None ->
  UnmarshalText r b =
  (fst (gjson.iterate parse post (fst (parse (fst (gjson.iterate parse pre r)) k v))),
   kind_error <$> first_offence post).
Proof.
  intros Hvalid Hitems Hpre Hk.
  rewrite UnmarshalText_valid by exact Hvalid. rewrite Hitems.
  rewrite first_offence_app, Hpre. simpl first_offence. rewrite Hk.
  rewrite iterate_parse_prefix by exact Hpre. simpl gjson.iterate.
  pose proof (parse_panics (fst (gjson.iterate parse pre r)) k v) as Hp.
  rewrite Hk in Hp.
  destruct (parse (fst (gjson.iterate parse pre r)) k v) as [r2 [msg|]];
    simpl in Hp; [discriminate|reflexivity].
Qed.

(** What an acceptable run adds to the lists and to the counter. *)
Lemma iterate_parse_totals (items : list (string * gjson.Result)) (r : Response) :
  first_offence items = None ->
  (0 <= fields r)%Z ->
  (fields r + Z.of_nat (names_counted items) < 2 ^ 63)%Z ->
  let r' := fst (gjson.iterate parse items r) in
  IDs r' = IDs r ++ ids_of items /\
  Objects r' = Objects r ++ objects_of items /\
  fields r' = (fields r + Z.of_nat (names_counted items))%Z.
Proof.
  revert r. induction items as [|[k v] items IH]; intros r Hok Hc Hn.
  - simpl. rewrite !app_nil_r. repeat split. unfold names_counted. simpl. lia.
  - simpl (gjson.iterate _ _ _). simpl in Hok. destruct (offence k v) eqn:Hk; [discriminate|].
    pose proof (parse_panics r k v) as Hp. rewrite Hk in Hp.
    change ((k, v) :: items) with ([(k, v)] ++ items) in Hn.
    rewrite names_counted_app in Hn.
    assert (Hstep : IDs (fst (parse r k v)) = IDs r ++ ids_of [(k, v)] /\
                    Objects (fst (parse r k v)) = Objects r ++ objects_of [(k, v)] /\
                    fields (fst (parse r k v)) =
                      (fields r + Z.of_nat (names_counted [(k, v)]))%Z).
    { unfold ids_of, objects_of, names_counted. simpl. rewrite !app_nil_r.
      repeat split.
      - destruct (String.eqb_spec k "ids") as [->|Hne].
        + rewrite parse_ids_key. destruct r; reflexivity.
        + rewrite app_nil_r. symmetry.
          apply (parse_frame r k "ids" v Hne).
      - destruct (String.eqb_spec k "objects") as [->|Hne].
        + rewrite parse_objects_key. destruct r; reflexivity.
        + rewrite app_nil_r. symmetry.
          apply (parse_frame r k "objects" v Hne).
      - destruct (String.eqb_spec k "fields") as [->|Hne].
        + rewrite parse_fields, parsefields_ok by (apply offence_fields; exact Hk).
          unfold names_counted in Hn. simpl in Hn. rewrite app_nil_r in Hn.
          transitivity (advance (length (field_names v)) (fields r));
            [destruct r; reflexivity|].
          apply advance_small; lia.
        + simpl. rewrite Z.add_0_r. symmetry.
          apply (parse_frame r k "fields" v Hne). }
    destruct (parse r k v) as [r1 [msg|]]; simpl in Hp; [discriminate|].
    cbn [fst] in Hstep. destruct Hstep as (Hi & Ho & Hf).
    destruct (IH r1 Hok) as (Hi' & Ho' & Hf'); [lia|lia|].
    change ((k, v) :: items) with ([(k, v)] ++ items).
    rewrite ids_of_app, objects_of_app, names_counted_app.
    cbv zeta in *.
    rewrite Hi', Ho', Hf', Hi, Ho, Hf, <- !app_assoc.
    repeat split. lia.
Qed.

(** ** Properties of the decoder *)

(** C4, as the code has it.  A decode fails in exactly three cases, each
    with an error of its own: the bytes are not valid JSON
    ([InvalidInput]); a key handed to [parse] is not one of the seventeen it
    knows ([UnknownField]); the value of [fields] is neither an array nor
    an object ([UnknownFieldType]).  The first pair at fault decides, and
    every other input decodes without error.  The second case is more than
    an unrecognized key of an object: valid JSON that is no object comes
    with an empty key, so that a lone value and an array with an element
    fail with [UnknownField]; an empty array decodes without error. *)
Theorem decode_fails_in_three_cases (r : Response) (b : gjson.bytes) :
  snd (UnmarshalText r b) = kind_error <$> decode_failure b /\
  (decode_failure b = None <-> snd (UnmarshalText r b) = None) /\
  (forall e1 e2 : ErrorKind,
      Error (kind_error e1) = Error (kind_error e2) -> e1 = e2) /\
  (forall doc : gjson.Result,
      gjson.IsObject doc = false ->
      snd (UnmarshalText r (gjson.Wellformed doc)) =
      match doc with
      | gjson.JArray _ [] => None
      | _ => Some (kind_error UnknownField)
      end).
Proof.
  assert (Hvalue : forall doc : gjson.Result,
             gjson.IsObject doc = false ->
             snd (UnmarshalText r (gjson.Wellformed doc)) =
             match doc with
             | gjson.JArray _ [] => None
             | _ => Some (kind_error UnknownField)
             end).
  { intros doc Hdoc. rewrite UnmarshalText_valid by reflexivity. cbn [snd].
    destruct doc as [| | | | |raw [|x elems]|]; try discriminate Hdoc; reflexivity. }
  cut (snd (UnmarshalText r b) = kind_error <$> decode_failure b /\
       (decode_failure b = None <-> snd (UnmarshalText r b) = None) /\
       (forall e1 e2 : ErrorKind,
           Error (kind_error e1) = Error (kind_error e2) -> e1 = e2)).
  { intros (H1 & H2 & H3).
    split; [exact H1|]. split; [exact H2|]. split; [exact H3|exact Hvalue]. }
  assert (Heq : snd (UnmarshalText r b) = kind_error <$> decode_failure b).
  { unfold decode_failure. destruct (gjson.ValidBytes b) eqn:Hvalid; simpl.
    - rewrite UnmarshalText_valid by exact Hvalid. reflexivity.
    - rewrite UnmarshalText_invalid by exact Hvalid. reflexivity. }
  split; [exact Heq|]. split.
  - rewrite Heq. destruct (decode_failure b); simpl; split; congruence.
  - intros [] []; simpl; intros H; try reflexivity; discriminate H.
Qed.

(** C5.  A reply that is acceptable up to a key [k] that is not recognized:
    the decode returns the [UnknownField] error, and the model it leaves is
    the very model a successful decode of the keys before [k] yields;
    nothing after [k] is read, so a field whose key does not occur before
    [k] keeps the value it had when the decode began. *)
Theorem unknown_key_keeps_prefix (r : Response) (b : gjson.bytes) (raw : string)
    (pre post : list (string * gjson.Result)) (k : string) (v : gjson.Result) :
  gjson.ValidBytes b = true ->
  gjson.entries (gjson.ParseBytes b) = pre ++ (k, v) :: post ->
  first_offence pre = None ->
  recognized k = false ->
  exists r1 : Response,
    UnmarshalText r (gjson.Wellformed (gjson.JObject raw pre)) = (r1, None) /\
    UnmarshalText r b = (r1, Some (kind_error UnknownField)) /\
    (forall k' : string, k' ∉ map fst pre -> same_field k' r r1).
Proof.
  intros Hvalid Hitems Hpre Hk.
  exists (fst (gjson.iterate parse pre r)). split; [|split].
  - rewrite UnmarshalText_valid by reflexivity. simpl. rewrite Hpre. reflexivity.
  - rewrite UnmarshalText_valid by exact Hvalid. rewrite Hitems.
    rewrite first_offence_app, Hpre. simpl first_offence.
    unfold offence at 1. rewrite Hk. simpl. f_equal.
    rewrite iterate_app.
    pose proof (iterate_parse_panics pre r) as Hp. rewrite Hpre in Hp.
    destruct (gjson.iterate parse pre r) as [r1 [msg|]]; simpl in Hp; [discriminate|].
    simpl gjson.iterate. rewrite parse_unknown by exact Hk. reflexivity.
  - intros k' Hk'. apply iterate_parse_frame. exact Hk'.
Qed.

(** C1, as the code has it.  After a successful decode of a reply whose last
    [object] key holds [v]: [Object] is the raw text of [v] when [v] is an
    object or an array, the unquoted content when [v] is a string, and the
    empty string when [v] is a number, a boolean or null. *)
Theorem object_raw_or_string (r r' : Response) (b : gjson.bytes)
    (pre post : list (string * gjson.Result)) (v : gjson.Result) :
  UnmarshalText r b = (r', None) ->
  gjson.entries (gjson.ParseBytes b) = pre ++ ("object", v) :: post ->
  "object" ∉ map fst post ->
  (gjson.IsObject v || gjson.IsArray v = true -> Object r' = gjson.Raw v) /\
  (forall raw str : string, v = gjson.JString raw str -> Object r' = str) /\
  (gjson.Type_ v <> gjson.TJSON -> gjson.Type_ v <> gjson.TString ->
   Object r' = EmptyString).
Proof.
  intros Hdec Hitems Hpost.
  assert (Hvalid : gjson.ValidBytes b = true).
  { destruct (gjson.ValidBytes b) eqn:Hb; [reflexivity|].
    rewrite UnmarshalText_invalid in Hdec by exact Hb. discriminate. }
  rewrite UnmarshalText_valid in Hdec by exact Hvalid.
  rewrite Hitems in Hdec. injection Hdec as Hr Herr.
  destruct (first_offence (pre ++ ("object", v) :: post)) eqn:Hoff; [discriminate|].
  rewrite first_offence_app in Hoff.
  destruct (first_offence pre) eqn:Hpre; [discriminate|].
  rewrite iterate_parse_prefix in Hr by exact Hpre.
  simpl gjson.iterate in Hr. rewrite parse_object in Hr.
  pose proof (iterate_parse_frame post "object"
                (set_Object (match gjson.Type_ v with
                             | gjson.TJSON => gjson.Raw v
                             | _ => gjson.Str v
                             end) (fst (gjson.iterate parse pre r))) Hpost) as Hfr.
  rewrite Hr in Hfr. unfold same_field in Hfr. simpl in Hfr.
  rewrite <- Hfr. clear.
  repeat split.
  - destruct v; simpl; intros H; try discriminate; reflexivity.
  - intros raw str ->. reflexivity.
  - destruct v; simpl; intros H1 H2; try reflexivity; contradiction.
Qed.

(** The model after a reply whose last [fields] key is reached and holds an
    array or an object: a new map with the names assigned from the value the
    counter had at that key, the numbers appended. *)
Lemma fields_key_effect (r : Response) (b : gjson.bytes)
    (pre post : list (string * gjson.Result)) (v : gjson.Result) :
  gjson.ValidBytes b = true ->
  gjson.entries (gjson.ParseBytes b) = pre ++ ("fields", v) :: post ->
  first_offence pre = None ->
  gjson.IsArray v || gjson.IsObject v = true ->
  "fields" ∉ map fst post ->
  let r1 := fst (gjson.iterate parse pre r) in
  let r' := fst (UnmarshalText r b) in
  FieldNames r' = assign (field_names v) (fields r1) ∅ /\
  FieldValues r' = FieldValues r1 ++ field_numbers v /\
  fields r' = advance (length (field_names v)) (fields r1) /\
  snd (UnmarshalText r b) = kind_error <$> first_offence post.
Proof.
  intros Hvalid Hitems Hpre Hv Hpost r1 r'. subst r'.
  assert (Hoff : offence "fields" v = None).
  { unfold offence. simpl. rewrite Hv. reflexivity. }
  rewrite (decode_split r b pre post "fields" v Hvalid Hitems Hpre Hoff).
  fold r1. rewrite parse_fields, parsefields_ok by exact Hv. cbn [fst snd].
  match goal with
  | |- context [gjson.iterate parse post ?r2] =>
      pose proof (iterate_parse_frame post "fields" r2 Hpost) as Hfr
  end.
  unfold same_field in Hfr. simpl in Hfr. destruct Hfr as (Hn & Hvs & Hc).
  rewrite <- Hn, <- Hvs, <- Hc. destruct r1; repeat split.
Qed.

Lemma map_lookup {A B : Type} (f : A -> B) (l : list A) (i : nat) :
  map f l !! i = f <$> l !! i.
Proof. apply list_lookup_fmap. Qed.

(** C2, as the code has it.  A reply decoded into a new model, whose only
    [fields] key is reached and holds an array of [N] elements with pairwise
    distinct names: [FieldNames] has [N] entries, the name of the element at
    position [i] has index [i], every index comes from such a position, and
    [FieldValues] is empty; the decode succeeds when the keys after
    [fields] are acceptable. *)
Theorem fields_array_indexes (b : gjson.bytes) (raw : string)
    (pre post : list (string * gjson.Result)) (elems : list gjson.Result) :
  gjson.ValidBytes b = true ->
  gjson.entries (gjson.ParseBytes b) = pre ++ ("fields", gjson.JArray raw elems) :: post ->
  "fields" ∉ map fst pre ->
  "fields" ∉ map fst post ->
  first_offence pre = None ->
  NoDup (map gjson.Str elems) ->
  (Z.of_nat (length elems) < 2 ^ 63)%Z ->
  let r' := fst (UnmarshalText new_Response b) in
  size (FieldNames r') = length elems /\
  (forall (i : nat) (x : gjson.Result),
      elems !! i = Some x -> FieldNames r' !! gjson.Str x = Some (Z.of_nat i)) /\
  (forall (name : string) (j : Z),
      FieldNames r' !! name = Some j ->
      exists (i : nat) (x : gjson.Result),
        elems !! i = Some x /\ gjson.Str x = name /\ j = Z.of_nat i) /\
  FieldValues r' = [] /\
  (first_offence post = None -> snd (UnmarshalText new_Response b) = None).
Proof.
  intros Hvalid Hitems Hnpre Hnpost Hpre Hnd Hlen r'.
  destruct (fields_key_effect new_Response b pre post (gjson.JArray raw elems)
              Hvalid Hitems Hpre eq_refl Hnpost) as (Hn & Hvs & _ & Herr).
  pose proof (iterate_parse_frame pre "fields" new_Response Hnpre) as Hfr.
  unfold same_field in Hfr. simpl in Hfr. destruct Hfr as (_ & Hvs0 & Hc0).
  fold r' in Hn, Hvs. rewrite <- Hc0 in Hn. rewrite <- Hvs0 in Hvs.
  simpl in Hn, Hvs.
  assert (Hbound : (0 + Z.of_nat (length (map gjson.Str elems)) < 2 ^ 63)%Z)
    by (rewrite length_map; lia).
  split; [|split; [|split; [|split]]].
  - rewrite Hn, assign_size by exact Hnd. apply length_map.
  - intros i x Hi. rewrite Hn.
    assert (Hl : map gjson.Str elems !! i = Some (gjson.Str x))
      by (rewrite map_lookup, Hi; reflexivity).
    rewrite (assign_lookup _ 0 ∅ i _ Hnd (Z.le_refl 0) Hbound Hl). reflexivity.
  - intros name j Hj. rewrite Hn in Hj.
    apply assign_lookup_inv in Hj as [(i & Hi & ->)|Hj]; try assumption; try lia.
    + rewrite map_lookup in Hi.
      destruct (elems !! i) as [x|] eqn:Hx; [|discriminate].
      injection Hi as <-. exists i, x.
      split; [exact Hx|split; [reflexivity|lia]].
    + rewrite lookup_empty in Hj. discriminate.
  - exact Hvs.
  - intros Hpost. rewrite Herr, Hpost. reflexivity.
Qed.

(** C3, as the code has it.  A reply decoded into a new model, whose only
    [fields] key is reached and holds an object of [N] members with pairwise
    distinct names: [FieldNames] has [N] entries, the name of the member at
    position [i] has index [i], and [FieldValues] at [i] is the number of
    that member; the decode succeeds when the keys after [fields] are
    acceptable. *)
Theorem fields_object_indexes (b : gjson.bytes) (raw : string)
    (pre post members : list (string * gjson.Result)) :
  gjson.ValidBytes b = true ->
  gjson.entries (gjson.ParseBytes b) = pre ++ ("fields", gjson.JObject raw members) :: post ->
  "fields" ∉ map fst pre ->
  "fields" ∉ map fst post ->
  first_offence pre = None ->
  NoDup (map fst members) ->
  (Z.of_nat (length members) < 2 ^ 63)%Z ->
  let r' := fst (UnmarshalText new_Response b) in
  size (FieldNames r') = length members /\
  length (FieldValues r') = length members /\
  (forall (i : nat) (name : string) (x : gjson.Result),
      members !! i = Some (name, x) ->
      FieldNames r' !! name = Some (Z.of_nat i) /\
      FieldValues r' !! i = Some (gjson.Num x)) /\
  (forall (name : string) (j : Z),
      FieldNames r' !! name = Some j ->
      exists (i : nat) (x : gjson.Result),
        members !! i = Some (name, x) /\ j = Z.of_nat i) /\
  (first_offence post = None -> snd (UnmarshalText new_Response b) = None).
Proof.
  intros Hvalid Hitems Hnpre Hnpost Hpre Hnd Hlen r'.
  destruct (fields_key_effect new_Response b pre post (gjson.JObject raw members)
              Hvalid Hitems Hpre eq_refl Hnpost) as (Hn & Hvs & _ & Herr).
  pose proof (iterate_parse_frame pre "fields" new_Response Hnpre) as Hfr.
  unfold same_field in Hfr. simpl in Hfr. destruct Hfr as (_ & Hvs0 & Hc0).
  fold r' in Hn, Hvs. rewrite <- Hc0 in Hn. rewrite <- Hvs0 in Hvs.
  simpl in Hn, Hvs.
  assert (Hbound : (0 + Z.of_nat (length (map fst members)) < 2 ^ 63)%Z)
    by (rewrite length_map; lia).
  split; [|split; [|split; [|split]]].
  - rewrite Hn, assign_size by exact Hnd. apply length_map.
  - rewrite Hvs. apply length_map.
  - intros i name x Hi. split.
    + rewrite Hn.
      assert (Hl : map fst members !! i = Some name)
        by (rewrite map_lookup, Hi; reflexivity).
      rewrite (assign_lookup _ 0 ∅ i _ Hnd (Z.le_refl 0) Hbound Hl). reflexivity.
    + rewrite Hvs, map_lookup, Hi. reflexivity.
  - intros name j Hj. rewrite Hn in Hj.
    apply assign_lookup_inv in Hj as [(i & Hi & ->)|Hj]; try assumption; try lia.
    + rewrite map_lookup in Hi.
      destruct (members !! i) as [[l x]|] eqn:Hx; [|discriminate].
      simpl in Hi. injection Hi as <-. exists i, x. split; [exact Hx|lia].
    + rewrite lookup_empty in Hj. discriminate.
  - intros Hpost. rewrite Herr, Hpost. reflexivity.
Qed.

Section TimeContract.

(** What the decoder relies on: [time.Parse] returns [time.Time{}] next to
    every error it reports. *)
Hypothesis time_Parse_failure :
  forall (layout value : string) (t : time_Time) (e : error),
    time_Parse layout value = (t, Some e) -> t = time_zero.

(** C9.  A reply whose last [time] key holds [v] and whose other keys are
    all acceptable, decoded into any model: the decode succeeds whether or
    not the text of [v] parses as a timestamp; [Time] is the zero time when
    it does not parse, and the parsed timestamp when it does. *)
Theorem time_parse_failure_is_silent (r : Response) (b : gjson.bytes)
    (pre post : list (string * gjson.Result)) (v : gjson.Result) :
  gjson.ValidBytes b = true ->
  gjson.entries (gjson.ParseBytes b) = pre ++ ("time", v) :: post ->
  "time" ∉ map fst post ->
  first_offence (pre ++ post) = None ->
  let r' := fst (UnmarshalText r b) in
  snd (UnmarshalText r b) = None /\
  (forall (t : time_Time) (e : error),
      time_Parse RFC3339Nano (gjson.Str v) = (t, Some e) -> Time r' = time_zero) /\
  (forall t : time_Time,
      time_Parse RFC3339Nano (gjson.Str v) = (t, None) -> Time r' = t).
Proof.
  intros Hvalid Hitems Hnpost Hok r'.
  rewrite first_offence_app in Hok.
  destruct (first_offence pre) eqn:Hpre; [discriminate|].
  assert (Hr : UnmarshalText r b =
               (fst (gjson.iterate parse post
                       (fst (parse (fst (gjson.iterate parse pre r)) "time" v))), None)).
  { rewrite (decode_split r b pre post "time" v Hvalid Hitems Hpre eq_refl).
    rewrite Hok. reflexivity. }
  subst r'. rewrite Hr. cbn [fst snd]. rewrite parse_time. cbn [fst].
  match goal with
  | |- context [gjson.iterate parse post ?r2] =>
      pose proof (iterate_parse_frame post "time" r2 Hnpost) as Hfr
  end.
  unfold same_field in Hfr. simpl in Hfr. rewrite <- Hfr.
  split; [reflexivity|]. split.
  - intros t e Ht. rewrite Ht. destruct (fst (gjson.iterate parse pre r)); simpl.
    exact (time_Parse_failure _ _ _ _ Ht).
  - intros t Ht. rewrite Ht. destruct (fst (gjson.iterate parse pre r)); reflexivity.
Qed.

End TimeContract.

(** C10.  An acceptable reply decoded into a model [r] that may have been
    decoded into before (counter in range): [IDs] and [Objects] keep what
    they held and get the reply's entries behind it, the counter moves on by
    the number of names the reply lists and is not reset, and after the
    reply's last [fields] key (distinct names) [FieldNames] holds the names
    of that key only, indexed from the counter's value at that key: the
    value in [r] plus the names of the [fields] keys before it. *)
Theorem decode_accumulates (r : Response) (b : gjson.bytes) :
  gjson.ValidBytes b = true ->
  first_offence (gjson.entries (gjson.ParseBytes b)) = None ->
  (0 <= fields r)%Z ->
  (fields r + Z.of_nat (names_counted (gjson.entries (gjson.ParseBytes b))) < 2 ^ 63)%Z ->
  let r' := fst (UnmarshalText r b) in
  snd (UnmarshalText r b) = None /\
  IDs r' = IDs r ++ ids_of (gjson.entries (gjson.ParseBytes b)) /\
  Objects r' = Objects r ++ objects_of (gjson.entries (gjson.ParseBytes b)) /\
  fields r' = (fields r + Z.of_nat (names_counted (gjson.entries (gjson.ParseBytes b))))%Z /\
  (forall (pre post : list (string * gjson.Result)) (v : gjson.Result),
      gjson.entries (gjson.ParseBytes b) = pre ++ ("fields", v) :: post ->
      "fields" ∉ map fst post ->
      NoDup (field_names v) ->
      (forall (i : nat) (x : string),
          field_names v !! i = Some x ->
          FieldNames r' !! x =
          Some (fields r + Z.of_nat (names_counted pre) + Z.of_nat i)%Z) /\
      (forall x : string, x ∉ field_names v -> FieldNames r' !! x = None)).
Proof.
  intros Hvalid Hok Hc Hn r'.
  pose proof (iterate_parse_totals _ r Hok Hc Hn) as (Hi & Ho & Hf).
  subst r'. rewrite UnmarshalText_valid by exact Hvalid. cbn [fst snd].
  rewrite Hok. split; [reflexivity|]. split; [exact Hi|]. split; [exact Ho|].
  split; [exact Hf|]. clear Hi Ho Hf.
  intros pre post v Hitems Hnpost Hnd.
  rewrite Hitems in Hok, Hn.
  rewrite first_offence_app in Hok.
  destruct (first_offence pre) eqn:Hpre; [discriminate|].
  simpl in Hok. destruct (offence "fields" v) eqn:Hoff; [discriminate|].
  change (("fields", v) :: post) with ([("fields", v)] ++ post) in Hn.
  rewrite !names_counted_app in Hn.
  assert (Hone : names_counted [("fields", v)] = length (field_names v)).
  { unfold names_counted. simpl. rewrite app_nil_r. reflexivity. }
  rewrite Hone in Hn.
  pose proof (iterate_parse_totals pre r Hpre Hc) as (_ & _ & Hf1); [lia|].
  pose proof (fields_key_effect r b pre post v Hvalid Hitems Hpre
                (offence_fields v Hoff) Hnpost) as (Hnames & _).
  rewrite UnmarshalText_valid in Hnames by exact Hvalid. cbn [fst] in Hnames.
  rewrite Hnames, Hf1. split.
  - intros i x Hx. apply assign_lookup; try assumption; lia.
  - intros x Hx. rewrite assign_notin by exact Hx. apply lookup_empty.
Qed.

(** ** Properties of the commands *)

(** What [runcmd] makes of a frame that decodes: the response when the
    server said ok, an error that wraps [errResponse] and carries the
    server's message when it did not. *)
Lemma runcmd_decoded (p : Pool) (cmd : string) (args : list string) (n : Network)
    (b : gjson.bytes) (r : Response) :
  respond p (sent n) (cmd :: args) = Frame b ->
  UnmarshalText new_Response b = (r, None) ->
  runcmd (mkDatabase (Some p)) cmd (Some args) n =
  (Returns (if Ok r then (Some r, None)
            else (None, Some (Errorf_w_s errResponse (Err r)))),
   mkNetwork (sent n ++ [cmd :: args]) (closed n)).
Proof.
  intros Hreply Hdec. unfold runcmd, pool_Do. simpl. rewrite Hreply, Hdec.
  destruct (Ok r); reflexivity.
Qed.

Lemma not_found_text (m : string) :
  String.eqb (Error (Errorf_w_s errResponse m)) "received error: id not found" =
  String.eqb m "id not found".
Proof. reflexivity. Qed.

(** C6.  [Get] on a connected handle, the server's reply decoding to a
    response that is not ok and carries the message [Err r]: the request is
    sent, and [Get] returns neither a response nor an error when the message
    is exactly ["id not found"]; for any other message it returns no response
    and an error that wraps [errResponse] and reads
    ["received error: "] followed by the message. *)
Theorem get_not_found_translation (p : Pool) (key id : string) (args : slice)
    (n : Network) (b : gjson.bytes) (r : Response) :
  respond p (sent n) ("GET" :: key :: id :: default [] args) = Frame b ->
  UnmarshalText new_Response b = (r, None) ->
  Ok r = false ->
  let res := Get (mkDatabase (Some p)) key id args n in
  sent (snd res) = sent n ++ ["GET" :: key :: id :: default [] args] /\
  (Err r = "id not found" -> fst res = Returns (None, None)) /\
  (Err r <> "id not found" ->
   fst res = Returns (None, Some (Errorf_w_s errResponse (Err r))) /\
   Error (Errorf_w_s errResponse (Err r)) = "received error: " +:+ Err r /\
   Is (Errorf_w_s errResponse (Err r)) errResponse = true).
Proof.
  intros Hreply Hdec Hok res. subst res. unfold Get. cbn [pool].
  assert (Hargs : match args with
                  | Some args0 => [key; id] ++ args0
                  | None => [key; id]
                  end = key :: id :: default [] args) by (destruct args; reflexivity).
  rewrite Hargs, (runcmd_decoded p "GET" _ n b r Hreply Hdec), Hok.
  rewrite not_found_text.
  destruct (String.eqb_spec (Err r) "id not found") as [Hm|Hm]; cbn [fst snd sent].
  - split; [reflexivity|]. split; [reflexivity|]. intros Hne. contradiction.
  - split; [reflexivity|]. split; [intros Heq; contradiction|].
    intros _. split; [reflexivity|]. split; reflexivity.
Qed.

(** Whatever the server answers, [runcmd] with a slice that is not nil
    writes its request. *)
Lemma runcmd_sends (p : Pool) (cmd : string) (args : list string) (n : Network) :
  sent (snd (runcmd (mkDatabase (Some p)) cmd (Some args) n)) = sent n ++ [cmd :: args].
Proof.
  unfold runcmd, pool_Do. cbn [pool].
  destruct (respond p (sent n) (cmd :: args)) as [b|e]; [|reflexivity].
  destruct (UnmarshalText new_Response b) as [r [e|]]; [reflexivity|].
  destruct (Ok r); reflexivity.
Qed.

(** The guard on the arguments compares the slice with nil.  [runcmd] given
    a nil slice, on any handle, and [Set] on a connected handle called with
    key and id alone (its variadic slice is nil) return the [errArgs] error
    and leave the network as it was.  The comparison does not catch a slice
    that is empty and not nil: for every slice that is not nil [Set] writes
    its request. *)
Theorem nil_arguments_rejected (db : Database) (p : Pool) (cmd key id : string)
    (l : list string) (n : Network) :
  runcmd db cmd None n = (Returns (None, Some errArgs), n) /\
  Set_ (mkDatabase (Some p)) key id None n = (Returns (Some errArgs), n) /\
  sent (snd (Set_ (mkDatabase (Some p)) key id (Some l) n)) =
    sent n ++ ["SET" :: key :: id :: l].
Proof.
  split; [reflexivity|]. split; [reflexivity|].
  unfold Set_. cbn [pool].
  pose proof (runcmd_sends p "SET" ([key; id] ++ l) n) as Hsent.
  destruct (runcmd (mkDatabase (Some p)) "SET" (Some ([key; id] ++ l)) n)
    as [[[r [e|]]|msg] n']; exact Hsent.
Qed.

(** C8.  Every command and [Close], on a handle whose pool is nil, return
    the [errUninitialized] error and leave the network as it was. *)
Theorem uninitialized_before_network (key id pattern : string) (args : slice)
    (seconds : Z) (n : Network) :
  Set_ new_Database key id args n = (Returns (Some errUninitialized), n) /\
  Get new_Database key id args n = (Returns (None, Some errUninitialized), n) /\
  Scan new_Database key args n = (Returns (None, Some errUninitialized), n) /\
  Search new_Database key args n = (Returns (None, Some errUninitialized), n) /\
  Del new_Database key id n = (Returns (Some errUninitialized), n) /\
  PDel new_Database key pattern n = (Returns (Some errUninitialized), n) /\
  Expire new_Database key id seconds n = (Returns (Some errUninitialized), n) /\
  Persist new_Database key id n = (Returns (Some errUninitialized), n) /\
  TTL_ new_Database key id n = (Returns (float64_zero, Some errUninitialized), n) /\
  Close new_Database n = (Returns (Some errUninitialized), n).
Proof. repeat split. Qed.

(** ** More on the decoder *)

(** A decode, failed or not, leaves alone every field whose key does not
    occur in the reply. *)
Theorem decode_leaves_absent_keys (r : Response) (b : gjson.bytes) (k' : string) :
  k' ∉ map fst (gjson.entries (gjson.ParseBytes b)) ->
  same_field k' r (fst (UnmarshalText r b)).
Proof.
  intros Hk'. destruct (gjson.ValidBytes b) eqn:Hvalid.
  - rewrite UnmarshalText_valid by exact Hvalid. apply iterate_parse_frame. exact Hk'.
  - rewrite UnmarshalText_invalid by exact Hvalid. apply same_field_refl.
Qed.

(** The step of the last occurrence of an acceptable key decides the fields
    of that key. *)
Lemma last_step_decides (r : Response) (b : gjson.bytes)
    (pre post : list (string * gjson.Result)) (k : string) (v : gjson.Result) :
  gjson.ValidBytes b = true ->
  gjson.entries (gjson.ParseBytes b) = pre ++ (k, v) :: post ->
  first_offence pre = None ->
  offence k v = None ->
  k ∉ map fst post ->
  same_field k (fst (parse (fst (gjson.iterate parse pre r)) k v)) (fst (UnmarshalText r b)).
Proof.
  intros Hvalid Hitems Hpre Hk Hpost.
  rewrite (decode_split r b pre post k v Hvalid Hitems Hpre Hk). cbn [fst].
  apply iterate_parse_frame. exact Hpost.
Qed.

(** A key that holds one value overwrites: when a reply is acceptable up to
    the last occurrence of such a key, the field is what that occurrence
    holds, whatever the model held and whatever the same key held
    earlier. *)
Theorem last_value_wins (r : Response) (b : gjson.bytes)
    (pre post : list (string * gjson.Result)) (k : string) (v : gjson.Result) :
  gjson.ValidBytes b = true ->
  gjson.entries (gjson.ParseBytes b) = pre ++ (k, v) :: post ->
  first_offence pre = None ->
  k ∉ map fst post ->
  let r' := fst (UnmarshalText r b) in
  (k = "ok" -> Ok r' = gjson.Bool v) /\
  (k = "id" -> ID r' = gjson.Str v) /\
  (k = "count" -> Count r' = int64_of_float64 (gjson.Num v)) /\
  (k = "cursor" -> Cursor r' = int64_of_float64 (gjson.Num v)) /\
  (k = "ttl" -> TTL r' = gjson.Num v) /\
  (k = "err" -> Err r' = gjson.Str v) /\
  (k = "elapsed" -> Elapsed r' = gjson.Str v) /\
  (k = "live" -> Live r' = gjson.Bool v) /\
  (k = "command" -> Command r' = gjson.Str v) /\
  (k = "group" -> Group r' = gjson.Str v) /\
  (k = "detect" -> Detect r' = gjson.Str v) /\
  (k = "key" -> Key r' = gjson.Str v) /\
  (k = "time" -> Time r' = fst (time_Parse RFC3339Nano (gjson.Str v))).
Proof.
  intros Hvalid Hitems Hpre Hpost r'. subst r'.
  repeat split; intros ->;
    pose proof (last_step_decides r b pre post _ v Hvalid Hitems Hpre eq_refl Hpost) as H;
    unfold same_field in H; simpl in H; rewrite <- H;
    destruct (fst (gjson.iterate parse pre r)); reflexivity.
Qed.

(** A [fields] value that is neither an array nor an object, reached by the
    decode: the error is [UnknownFieldType], and the model is the one the
    keys before it leave, except that [FieldNames] is empty; the names an
    earlier [fields] key assigned are gone, the values and the counter
    stay. *)
Theorem bad_fields_clears_names (r : Response) (b : gjson.bytes) (raw : string)
    (pre post : list (string * gjson.Result)) (v : gjson.Result) :
  gjson.ValidBytes b = true ->
  gjson.entries (gjson.ParseBytes b) = pre ++ ("fields", v) :: post ->
  first_offence pre = None ->
  gjson.IsArray v || gjson.IsObject v = false ->
  exists r1 : Response,
    UnmarshalText r (gjson.Wellformed (gjson.JObject raw pre)) = (r1, None) /\
    UnmarshalText r b = (set_FieldNames ∅ r1, Some (kind_error UnknownFieldType)).
Proof.
  intros Hvalid Hitems Hpre Hv.
  exists (fst (gjson.iterate parse pre r)). split.
  - rewrite UnmarshalText_valid by reflexivity. simpl. rewrite Hpre. reflexivity.
  - rewrite UnmarshalText_valid by exact Hvalid. rewrite Hitems.
    rewrite first_offence_app, Hpre. simpl first_offence.
    unfold offence at 1. simpl. rewrite Hv. simpl. f_equal.
    rewrite iterate_app.
    pose proof (iterate_parse_panics pre r) as Hp. rewrite Hpre in Hp.
    destruct (gjson.iterate parse pre r) as [r1 [msg|]]; simpl in Hp; [discriminate|].
    simpl gjson.iterate. rewrite parse_fields, parsefields_bad by exact Hv. reflexivity.
Qed.

(** One step never shortens a list of the model. *)
Lemma parse_extends (r : Response) (k : string) (v : gjson.Result) :
  IDs r `prefix_of` IDs (fst (parse r k v)) /\
  Objects r `prefix_of` Objects (fst (parse r k v)) /\
  FieldValues r `prefix_of` FieldValues (fst (parse r k v)).
Proof.
  split; [|split].
  - destruct (String.eqb_spec k "ids") as [->|Hne].
    + rewrite parse_ids_key. destruct r; simpl. apply prefix_app_r. reflexivity.
    + pose proof (parse_frame r k "ids" v Hne) as H. unfold same_field in H.
      simpl in H. rewrite <- H. reflexivity.
  - destruct (String.eqb_spec k "objects") as [->|Hne].
    + rewrite parse_objects_key. destruct r; simpl. apply prefix_app_r. reflexivity.
    + pose proof (parse_frame r k "objects" v Hne) as H. unfold same_field in H.
      simpl in H. rewrite <- H. reflexivity.
  - destruct (String.eqb_spec k "fields") as [->|Hne].
    + rewrite parse_fields.
      destruct (gjson.IsArray v || gjson.IsObject v) eqn:Hv.
      * rewrite parsefields_ok by exact Hv. destruct r; simpl.
        apply prefix_app_r. reflexivity.
      * rewrite parsefields_bad by exact Hv. destruct r; reflexivity.
    + pose proof (parse_frame r k "fields" v Hne) as H. unfold same_field in H.
      simpl in H. destruct H as (_ & H & _). rewrite <- H. reflexivity.
Qed.

(** Whatever the bytes and whatever the outcome, a decode only appends:
    what [IDs], [Objects] and [FieldValues] held before is a prefix of what
    they hold after. *)
Theorem decode_only_appends (r : Response) (b : gjson.bytes) :
  IDs r `prefix_of` IDs (fst (UnmarshalText r b)) /\
  Objects r `prefix_of` Objects (fst (UnmarshalText r b)) /\
  FieldValues r `prefix_of` FieldValues (fst (UnmarshalText r b)).
Proof.
  destruct (gjson.ValidBytes b) eqn:Hvalid.
  - rewrite UnmarshalText_valid by exact Hvalid. cbn [fst].
    generalize (gjson.entries (gjson.ParseBytes b)) as items.
    intros items. revert r.
    induction items as [|[k v] items IH]; intros r; simpl.
    + repeat split; reflexivity.
    + pose proof (parse_extends r k v) as (Hi & Ho & Hv).
      destruct (parse r k v) as [r1 [msg|]]; simpl in *.
      * repeat split; assumption.
      * destruct (IH r1) as (Hi' & Ho' & Hv').
        repeat split; etransitivity; eassumption.
  - rewrite UnmarshalText_invalid by exact Hvalid. repeat split; reflexivity.
Qed.

(** Two steps on different acceptable keys can be taken in either order. *)
Lemma parse_commute (r : Response) (k1 k2 : string) (v1 v2 : gjson.Result) :
  k1 <> k2 -> offence k1 v1 = None -> offence k2 v2 = None ->
  fst (parse (fst (parse r k1 v1)) k2 v2) = fst (parse (fst (parse r k2 v2)) k1 v1).
Proof.
  unfold offence, recognized, known_keys, parse, gjson.ForEach. simpl existsb.
  on_key k1; on_key k2; intros Hne H1 H2;
    try discriminate; try contradiction;
    rewrite ?iterate_parse_ids, ?iterate_parse_objects;
    repeat match goal with
           | H : (if negb (gjson.IsArray ?v || gjson.IsObject ?v) then _ else _) = None |- _ =>
               let Hv := fresh "Hv" in
               destruct (gjson.IsArray v || gjson.IsObject v) eqn:Hv;
               [clear H|discriminate H]
           end;
    rewrite ?parsefields_ok by assumption;
    repeat match goal with
           | |- context [gjson.ResultType_eqb ?a ?b] => destruct (gjson.ResultType_eqb a b)
           end;
    cbn [fst]; rewrite ?iterate_parse_ids, ?iterate_parse_objects;
    rewrite ?parsefields_ok by assumption;
    destruct r; reflexivity.
Qed.

Lemma first_offence_Forall (items : list (string * gjson.Result)) :
  first_offence items = None <-> Forall (fun kv => offence (fst kv) (snd kv) = None) items.
Proof.
  induction items as [|[k v] items IH]; simpl.
  - split; [constructor|reflexivity].
  - destruct (offence k v) eqn:Hk.
    + split; [discriminate|]. intros H. apply Forall_cons in H as [H _].
      simpl in H. congruence.
    + rewrite IH. split.
      * intros H. constructor; [exact Hk|exact H].
      * intros H. apply Forall_cons in H as [_ H]. exact H.
Qed.

Lemma iterate_parse_cons (r : Response) (k : string) (v : gjson.Result)
    (items : list (string * gjson.Result)) :
  offence k v = None ->
  fst (gjson.iterate parse ((k, v) :: items) r) =
  fst (gjson.iterate parse items (fst (parse r k v))).
Proof.
  intros Hk. simpl. pose proof (parse_panics r k v) as Hp. rewrite Hk in Hp.
  destruct (parse r k v) as [r1 [msg|]]; simpl in Hp; [discriminate|reflexivity].
Qed.

Lemma iterate_parse_permutation (l1 l2 : list (string * gjson.Result)) :
  l1 ≡ₚ l2 ->
  NoDup (map fst l1) ->
  first_offence l1 = None ->
  forall r : Response, fst (gjson.iterate parse l1 r) = fst (gjson.iterate parse l2 r).
Proof.
  induction 1 as [|[k v] l l' Hperm IH|[k1 v1] [k2 v2] l|l l' l'' H1 IH1 H2 IH2];
    intros Hnd Hok r.
  - reflexivity.
  - simpl in Hnd, Hok. apply NoDup_cons in Hnd as [_ Hnd].
    destruct (offence k v) eqn:Hk; [discriminate|].
    rewrite !iterate_parse_cons by exact Hk. apply IH; assumption.
  - simpl in Hnd, Hok.
    apply NoDup_cons in Hnd as [Hne _]. apply not_elem_of_cons in Hne as [Hne _].
    destruct (offence k2 v2) eqn:Hk2; [discriminate|].
    destruct (offence k1 v1) eqn:Hk1; [discriminate|].
    rewrite !iterate_parse_cons by assumption.
    rewrite (parse_commute r k2 k1 v2 v1 Hne Hk2 Hk1). reflexivity.
  - rewrite IH1 by assumption. apply IH2.
    + rewrite <- H1. exact Hnd.
    + apply first_offence_Forall. rewrite <- H1. apply first_offence_Forall. exact Hok.
Qed.

(** The order of the keys does not matter: two acceptable replies with the
    same members in different orders, no key twice, decode to the same
    model without error. *)
Theorem decode_order_irrelevant (r : Response) (b1 b2 : gjson.bytes) :
  gjson.ValidBytes b1 = true ->
  gjson.ValidBytes b2 = true ->
  gjson.entries (gjson.ParseBytes b1) ≡ₚ gjson.entries (gjson.ParseBytes b2) ->
  NoDup (map fst (gjson.entries (gjson.ParseBytes b1))) ->
  first_offence (gjson.entries (gjson.ParseBytes b1)) = None ->
  UnmarshalText r b1 = UnmarshalText r b2 /\ snd (UnmarshalText r b1) = None.
Proof.
  intros Hv1 Hv2 Hperm Hnd Hok.
  assert (Hok2 : first_offence (gjson.entries (gjson.ParseBytes b2)) = None).
  { apply first_offence_Forall. rewrite <- Hperm. apply first_offence_Forall. exact Hok. }
  rewrite !UnmarshalText_valid by assumption. rewrite Hok, Hok2.
  rewrite (iterate_parse_permutation _ _ Hperm Hnd Hok r). split; reflexivity.
Qed.

(** The counter equals the number of values, and every index in the map is
    below it. *)
Lemma aligned_step (r : Response) (k : string) (v : gjson.Result) :
  (k = "fields" -> gjson.IsArray v = false) ->
  (0 <= fields r)%Z ->
  (fields r + Z.of_nat (names_counted [(k, v)]) < 2 ^ 63)%Z ->
  fields r = Z.of_nat (length (FieldValues r)) ->
  (forall (name : string) (j : Z), FieldNames r !! name = Some j -> (0 <= j < fields r)%Z) ->
  let r' := fst (parse r k v) in
  fields r' = (fields r + Z.of_nat (names_counted [(k, v)]))%Z /\
  fields r' = Z.of_nat (length (FieldValues r')) /\
  (forall (name : string) (j : Z), FieldNames r' !! name = Some j -> (0 <= j < fields r')%Z).
Proof.
  intros Hobj Hc Hn Hlen Hrange r'. subst r'.
  unfold names_counted in *. simpl in *. rewrite app_nil_r in *.
  destruct (String.eqb_spec k "fields") as [->|Hne].
  - rewrite parse_fields.
    destruct (gjson.IsArray v || gjson.IsObject v) eqn:Hv.
    + rewrite parsefields_ok by exact Hv.
      assert (Hadv : advance (length (field_names v)) (fields r) =
                     (fields r + Z.of_nat (length (field_names v)))%Z)
        by (apply advance_small; lia).
      assert (Hnums : length (field_numbers v) = length (field_names v)).
      { destruct v; simpl in *; try discriminate.
        - discriminate (Hobj eq_refl).
        - rewrite !length_map. reflexivity. }
      destruct r; simpl in *. rewrite Hadv. split; [reflexivity|]. split.
      * rewrite length_app, Hnums. lia.
      * intros name j Hj.
        apply assign_lookup_inv in Hj as [(i & Hi & ->)|Hj]; try lia.
        -- apply lookup_lt_Some in Hi. lia.
        -- rewrite lookup_empty in Hj. discriminate.
    + rewrite parsefields_bad by exact Hv.
      destruct v; simpl in *; try discriminate;
        destruct r; simpl in *; (split; [lia|]; split; [lia|]);
        intros name j Hj; rewrite lookup_empty in Hj; discriminate.
  - pose proof (parse_frame r k "fields" v Hne) as H.
    unfold same_field in H. simpl in H. destruct H as (Hn' & Hv' & Hc').
    rewrite <- Hn', <- Hv', <- Hc'. simpl. split; [lia|]. split; [exact Hlen|exact Hrange].
Qed.

Lemma aligned_run (items : list (string * gjson.Result)) (r : Response) :
  (forall v : gjson.Result, ("fields", v) ∈ items -> gjson.IsArray v = false) ->
  (0 <= fields r)%Z ->
  (fields r + Z.of_nat (names_counted items) < 2 ^ 63)%Z ->
  fields r = Z.of_nat (length (FieldValues r)) ->
  (forall (name : string) (j : Z), FieldNames r !! name = Some j -> (0 <= j < fields r)%Z) ->
  let r' := fst (gjson.iterate parse items r) in
  fields r' = Z.of_nat (length (FieldValues r')) /\
  (forall (name : string) (j : Z), FieldNames r' !! name = Some j -> (0 <= j < fields r')%Z).
Proof.
  revert r. induction items as [|[k v] items IH]; intros r Hobj Hc Hn Hlen Hrange.
  - simpl. split; assumption.
  - change ((k, v) :: items) with ([(k, v)] ++ items) in Hn.
    rewrite names_counted_app in Hn.
    destruct (aligned_step r k v) as (Hc1 & Hlen1 & Hrange1); try assumption; try lia.
    { intros ->. apply Hobj. left. }
    simpl gjson.iterate.
    destruct (parse r k v) as [r1 [msg|]]; cbn [fst] in *.
    + split; assumption.
    + apply IH; try assumption; try lia.
      intros v' Hv'. apply Hobj. right. exact Hv'.
Qed.

(** A reply in which no [fields] key holds an array, decoded into a new
    model (failed or not, names repeated or not): every index stored in
    [FieldNames] addresses an element of [FieldValues]. *)
Theorem field_indexes_address_values (b : gjson.bytes) :
  (forall v : gjson.Result,
      ("fields", v) ∈ gjson.entries (gjson.ParseBytes b) -> gjson.IsArray v = false) ->
  (Z.of_nat (names_counted (gjson.entries (gjson.ParseBytes b))) < 2 ^ 63)%Z ->
  let r' := fst (UnmarshalText new_Response b) in
  forall (name : string) (j : Z),
    FieldNames r' !! name = Some j ->
    (0 <= j)%Z /\ exists x : float64, FieldValues r' !! Z.to_nat j = Some x.
Proof.
  intros Hobj Hn r' name j Hj. subst r'.
  destruct (gjson.ValidBytes b) eqn:Hvalid.
  - rewrite UnmarshalText_valid in * by exact Hvalid. cbn [fst] in *.
    assert (Hempty : forall (name' : string) (j' : Z),
               FieldNames new_Response !! name' = Some j' ->
               (0 <= j' < fields new_Response)%Z).
    { intros name' j' H. simpl in H. rewrite lookup_empty in H. discriminate. }
    destruct (aligned_run (gjson.entries (gjson.ParseBytes b)) new_Response
                Hobj (Z.le_refl 0) Hn eq_refl Hempty) as (Hlen & Hrange).
    apply Hrange in Hj. split; [lia|].
    apply lookup_lt_is_Some_2. lia.
  - rewrite UnmarshalText_invalid in Hj by exact Hvalid.
    simpl in Hj. rewrite lookup_empty in Hj. discriminate.
Qed.

(** ** The decoder of 2020 *)

Lemma iterate_ext {S : Type} (f g : S -> string -> gjson.Result -> S * option string)
    (items : list (string * gjson.Result)) (s : S) :
  (forall s' k v, f s' k v = g s' k v) ->
  gjson.iterate f items s = gjson.iterate g items s.
Proof.
  intros Hfg. revert s. induction items as [|[k v] items IH]; intros s; simpl.
  - reflexivity.
  - rewrite Hfg. destruct (g s k v) as [s' [msg|]]; [reflexivity|apply IH].
Qed.

Lemma decode_v2020_parse (r : Response) (k : string) (v : gjson.Result) :
  decode_v2020 r k v = parse r k v.
Proof. reflexivity. Qed.

(** [UnmarshalText] of [src/response.go] and the one above leave the same
    model and fail on the same bytes, for the same one of the three
    reasons; the texts of 2020 read ["received invalid JSON"] and
    ["error decoding response: "] followed by the text of the panic, and
    the latter errors wrap [errDecode]. *)
Theorem UnmarshalText_v2020_agrees (r : Response) (b : gjson.bytes) :
  fst (UnmarshalText_v2020 r b) = fst (UnmarshalText r b) /\
  option_map Error (snd (UnmarshalText_v2020 r b)) = text_v2020 <$> decode_failure b /\
  (forall e : error,
      snd (UnmarshalText_v2020 r b) = Some e ->
      gjson.ValidBytes b = true -> Is e errDecode = true).
Proof.
  unfold decode_failure. destruct (gjson.ValidBytes b) eqn:Hvalid.
  - rewrite UnmarshalText_valid by exact Hvalid.
    unfold UnmarshalText_v2020, gjson.ForEach. rewrite Hvalid. cbn [negb fst snd].
    rewrite (iterate_ext decode_v2020 parse) by apply decode_v2020_parse.
    pose proof (iterate_parse_panics (gjson.entries (gjson.ParseBytes b)) r) as Hp.
    pose proof (first_offence_kind (gjson.entries (gjson.ParseBytes b))) as Hk.
    destruct (gjson.iterate parse _ r) as [r' [msg|]]; simpl in Hp |- *.
    + destruct (first_offence _) as [[]|]; simpl in Hp; try discriminate;
        try contradiction; injection Hp as ->; repeat split;
        intros e He _; injection He as <-; reflexivity.
    + destruct (first_offence _); [discriminate|].
      repeat split. intros e He. discriminate.
  - rewrite UnmarshalText_invalid by exact Hvalid.
    unfold UnmarshalText_v2020. rewrite Hvalid. repeat split.
    intros e _ H. discriminate.
Qed.

(** ** More on the commands *)

Lemma runcmd_network (p : Pool) (cmd : string) (args : list string) (n : Network) :
  snd (runcmd (mkDatabase (Some p)) cmd (Some args) n) =
  mkNetwork (sent n ++ [cmd :: args]) (closed n).
Proof.
  unfold runcmd, pool_Do. cbn [pool].
  destruct (respond p (sent n) (cmd :: args)) as [b|e]; [|reflexivity].
  destruct (UnmarshalText new_Response b) as [r [e|]]; [reflexivity|].
  destruct (Ok r); reflexivity.
Qed.

(** What [runcmd] returns on a connected handle, by the server's answer: an
    error of the pool or of the decoder comes back wrapped as
    ["database error"], a decoded response that is not ok becomes an error
    that wraps [errResponse] and carries the server's message, and a
    response that is ok is returned. *)
Theorem runcmd_outcomes (p : Pool) (cmd : string) (args : list string) (n : Network) :
  fst (runcmd (mkDatabase (Some p)) cmd (Some args) n) =
  Returns
    match respond p (sent n) (cmd :: args) with
    | Failure e => (None, Some (newError (Some e) "database error"))
    | Frame b =>
        match decode_failure b with
        | Some kind => (None, Some (newError (Some (kind_error kind)) "database error"))
        | None =>
            let r := fst (UnmarshalText new_Response b) in
            if Ok r then (Some r, None)
            else (None, Some (Errorf_w_s errResponse (Err r)))
        end
    end /\
  (forall e : error,
      Error (newError (Some e) "database error") = "database error: " +:+ Error e /\
      Unwrap (newError (Some e) "database error") = Some e).
Proof.
  split; [|intros e; split; reflexivity].
  unfold runcmd, pool_Do. cbn [pool].
  destruct (respond p (sent n) (cmd :: args)) as [b|e]; [|reflexivity].
  unfold decode_failure. destruct (gjson.ValidBytes b) eqn:Hvalid; cbn [negb].
  - rewrite UnmarshalText_valid by exact Hvalid. cbn [fst].
    destruct (first_offence (gjson.entries (gjson.ParseBytes b))); simpl; [reflexivity|].
    destruct (Ok _); reflexivity.
  - rewrite UnmarshalText_invalid by exact Hvalid. reflexivity.
Qed.

Lemma runcmd_xor (p : Pool) (cmd : string) (args : list string) (n : Network) :
  response_xor_error (fst (runcmd (mkDatabase (Some p)) cmd (Some args) n)).
Proof.
  unfold runcmd, pool_Do. cbn [pool].
  destruct (respond p (sent n) (cmd :: args)) as [b|e]; [|exact I].
  destruct (UnmarshalText new_Response b) as [r [e|]]; [exact I|].
  destruct (Ok r) eqn:Hok; simpl; [exact Hok|exact I].
Qed.

(** On a connected handle no command panics, and a response never comes
    with an error: [Scan] and [Search] return a response that reports ok, or
    an error; [Get] may also return neither; [TTL] returns zero with every
    error; the commands without a response return at most an error. *)
Theorem commands_return_response_or_error (p : Pool) (key id pattern : string)
    (args : slice) (l : list string) (seconds : Z) (n : Network) :
  let db := mkDatabase (Some p) in
  response_xor_error (fst (Scan db key args n)) /\
  response_xor_error (fst (Search db key args n)) /\
  (response_xor_error (fst (Get db key id args n)) \/
   fst (Get db key id args n) = Returns (None, None)) /\
  ((exists t : float64, fst (TTL_ db key id n) = Returns (t, None)) \/
   (exists e : error, fst (TTL_ db key id n) = Returns (float64_zero, Some e))) /\
  (exists o : option error, fst (Set_ db key id (Some l) n) = Returns o) /\
  (exists o : option error, fst (Del db key id n) = Returns o) /\
  (exists o : option error, fst (PDel db key pattern n) = Returns o) /\
  (exists o : option error, fst (Expire db key id seconds n) = Returns o) /\
  (exists o : option error, fst (Persist db key id n) = Returns o).
Proof.
  intros db. subst db.
  unfold Scan, Search, Get, TTL_, Set_, Del, PDel, Expire, Persist,
    response_or_error, error_only. cbn [pool].
  repeat split;
    match goal with
    | |- context [runcmd (mkDatabase (Some p)) ?cmd (Some ?a) n] =>
        pose proof (runcmd_xor p cmd a n) as Hx;
        destruct (runcmd (mkDatabase (Some p)) cmd (Some a) n)
          as [[[[r|] [e|]]|msg] n']; simpl in Hx |- *;
        try contradiction; eauto
    end.
  destruct (String.eqb (Error e) "received error: id not found"); simpl; auto.
Qed.

(** On a connected handle every command writes exactly one request, the
    command name followed by its arguments in order, and closes nothing,
    whatever the server answers; [Close] writes nothing and closes once. *)
Theorem commands_write_one_request (p : Pool) (key id pattern : string)
    (args : slice) (seconds : Z) (n : Network) :
  let db := mkDatabase (Some p) in
  let after (request : list string) := mkNetwork (sent n ++ [request]) (closed n) in
  snd (Get db key id args n) = after ("GET" :: key :: id :: default [] args) /\
  snd (Scan db key args n) = after ("SCAN" :: key :: default [] args) /\
  snd (Search db key args n) = after ("SEARCH" :: key :: default [] args) /\
  snd (Del db key id n) = after ["DEL"; key; id] /\
  snd (PDel db key pattern n) = after ["PDEL"; key; pattern] /\
  snd (Expire db key id seconds n) = after ["EXPIRE"; key; id; Itoa seconds] /\
  snd (Persist db key id n) = after ["PERSIST"; key; id] /\
  snd (TTL_ db key id n) = after ["TTL"; key; id] /\
  snd (Close db n) = mkNetwork (sent n) (S (closed n)).
Proof.
  intros db after. subst db after.
  unfold Scan, Search, Get, TTL_, Del, PDel, Expire, Persist, Close,
    response_or_error, error_only, pool_Close. cbn [pool].
  repeat split;
    try match goal with
    | |- context [runcmd (mkDatabase (Some p)) ?cmd (Some ?a) n] =>
        pose proof (runcmd_network p cmd a n) as Hn;
        destruct (runcmd (mkDatabase (Some p)) cmd (Some a) n)
          as [[[[r|] [e|]]|msg] n']; cbn [snd] in Hn |- *;
        try destruct (String.eqb _ _); cbn [snd];
        rewrite Hn; destruct args; reflexivity
    end.
  destruct (closeResult p); reflexivity.
Qed.

(** [connectJSON] hands out a connection only after the handshake: the
    dial succeeded, the request [OUTPUT json] was written, and the reply
    decoded without error to a response that reports ok; the connection is
    then left open.  In every other case it returns an error and no
    connection, and a connection that was dialed is closed once. *)
Theorem connectJSON_gate (d : Dial) (n : Network) :
  match connectJSON d n with
  | ((Some conn, None), n') =>
      d = Dialed conn /\
      n' = mkNetwork (sent n ++ [["OUTPUT"; "json"]]) (closed n) /\
      exists (b : gjson.bytes) (r : Response),
        respond conn (sent n) ["OUTPUT"; "json"] = Frame b /\
        UnmarshalText new_Response b = (r, None) /\ Ok r = true
  | ((None, Some _), n') =>
      match d with
      | Dialed _ => n' = mkNetwork (sent n ++ [["OUTPUT"; "json"]]) (S (closed n))
      | DialFailed _ => n' = n
      end
  | _ => False
  end.
Proof.
  destruct d as [conn|e]; simpl; [|reflexivity].
  unfold pool_Do.
  destruct (respond conn (sent n) ["OUTPUT"; "json"]) as [b|e] eqn:Hreply; simpl;
    [|reflexivity].
  destruct (UnmarshalText new_Response b) as [r [e|]] eqn:Hdec; simpl; [reflexivity|].
  destruct (Ok r) eqn:Hok; simpl; [|reflexivity].
  repeat split. exists b, r. repeat split; assumption.
Qed.

(** A frame that decodes to a response reporting ok: [Get], [Scan] and
    [Search] return that very response, the one [UnmarshalText] builds in a
    new model, and [TTL] returns its [TTL]. *)
Theorem commands_return_decoded_response (p : Pool) (key id : string) (args : slice)
    (n : Network) (b : gjson.bytes) (r : Response) :
  (forall request : list string, respond p (sent n) request = Frame b) ->
  UnmarshalText new_Response b = (r, None) ->
  Ok r = true ->
  let db := mkDatabase (Some p) in
  fst (Get db key id args n) = Returns (Some r, None) /\
  fst (Scan db key args n) = Returns (Some r, None) /\
  fst (Search db key args n) = Returns (Some r, None) /\
  fst (TTL_ db key id n) = Returns (TTL r, None).
Proof.
  intros Hreply Hdec Hok db. subst db.
  unfold Get, Scan, Search, TTL_, response_or_error, runcmd, pool_Do. cbn [pool].
  rewrite !Hreply, Hdec, Hok. repeat split.
Qed.

Lemma database_error_text (e : error) :
  String.eqb (Error (newError (Some e) "database error")) "received error: id not found" =
  false.
Proof. reflexivity. Qed.

(** [Get] hides nothing but the server's ["id not found"]: when it returns
    neither a response nor an error, the server answered with a frame that
    decoded to a response that is not ok and whose message is exactly
    ["id not found"].  An error of the pool or of the decoder is never
    swallowed. *)
Theorem get_hides_only_not_found (p : Pool) (key id : string) (args : slice)
    (n : Network) :
  fst (Get (mkDatabase (Some p)) key id args n) = Returns (None, None) ->
  exists (b : gjson.bytes) (r : Response),
    respond p (sent n) ("GET" :: key :: id :: default [] args) = Frame b /\
    UnmarshalText new_Response b = (r, None) /\
    Ok r = false /\
    Err r = "id not found".
Proof.
  assert (Hargs : match args with
                  | Some args0 => [key; id] ++ args0
                  | None => [key; id]
                  end = key :: id :: default [] args) by (destruct args; reflexivity).
  unfold Get, runcmd, pool_Do. cbn [pool]. rewrite Hargs.
  destruct (respond p (sent n) ("GET" :: key :: id :: default [] args)) as [b|e].
  - destruct (UnmarshalText new_Response b) as [r [e|]] eqn:Hdec.
    + rewrite database_error_text. discriminate.
    + destruct (Ok r) eqn:Hok; cbn [negb]; [discriminate|].
      rewrite not_found_text.
      destruct (String.eqb_spec (Err r) "id not found") as [Hm|Hm]; [|discriminate].
      intros _. exists b, r. repeat split; assumption.
  - rewrite database_error_text. discriminate.
Qed.

(** ** The commands of 2020 *)

(** [Get] of the older [db.go] does not translate the server's
    ["id not found"]: a decoded reply that is not ok comes back as the error
    ["received error: "] followed by its message, whatever the message.
    Only an error of the pool whose whole text is ["id not found"] is
    turned into no response and no error: [Get] returns neither exactly
    when the pool reported such an error, and in no other case, be the
    frame undecodable, not ok or ok. *)
Theorem get_v2020_not_found (p : Pool) (key id : string) (args : slice) (n : Network) :
  let db := mkDatabase (Some p) in
  let request := "GET" :: key :: id :: default [] args in
  (forall (b : gjson.bytes) (r : Response),
      respond p (sent n) request = Frame b ->
      UnmarshalText_v2020 new_Response b = (r, None) ->
      Ok r = false ->
      fst (Get_v2020 db key id args n) =
        Returns (None, Some (Errorf_w_s errResponse_v2020 (Err r))) /\
      Error (Errorf_w_s errResponse_v2020 (Err r)) = "received error: " +:+ Err r) /\
  (forall e : error,
      respond p (sent n) request = Failure e ->
      fst (Get_v2020 db key id args n) =
        if String.eqb (Error e) "id not found"
        then Returns (None, None) else Returns (None, Some e)) /\
  (fst (Get_v2020 db key id args n) = Returns (None, None) <->
   exists e : error,
     respond p (sent n) request = Failure e /\ Error e = "id not found").
Proof.
  intros db request. subst db request.
  assert (Hargs : match args with
                  | Some args0 => [key; id] ++ args0
                  | None => [key; id]
                  end = key :: id :: default [] args) by (destruct args; reflexivity).
  unfold Get_v2020, runcmd_v2020, pool_Do_v2020. cbn [pool]. rewrite Hargs.
  split; [|split].
  - intros b r Hreply Hdec Hok. rewrite Hreply, Hdec, Hok. simpl. split; reflexivity.
  - intros e Hreply. rewrite Hreply. simpl.
    destruct (String.eqb (Error e) "id not found"); reflexivity.
  - destruct (respond p (sent n) ("GET" :: key :: id :: default [] args)) as [b|e].
    + split; [|intros (e & He & _); discriminate He].
      intros Hget. exfalso. revert Hget.
      unfold UnmarshalText_v2020.
      destruct (gjson.ValidBytes b); cbn [negb]; [|discriminate].
      destruct (gjson.ForEach (gjson.ParseBytes b) decode_v2020 new_Response)
        as [r [msg|]]; [discriminate|].
      destruct (Ok r); discriminate.
    + simpl. destruct (String.eqb_spec (Error e) "id not found") as [He|He].
      * split; [|reflexivity]. intros _. exists e. split; [reflexivity|exact He].
      * split; [discriminate|]. intros (e' & He' & Htext).
        injection He' as <-. contradiction.
Qed.

End Client.

Arguments ID {time_Time} r : rename.
Arguments Object {time_Time} r : rename.
Arguments IDs {time_Time} r : rename.
Arguments Objects {time_Time} r : rename.
Arguments FieldNames {time_Time} r : rename.
Arguments FieldValues {time_Time} r : rename.
Arguments Count {time_Time} r : rename.
Arguments Cursor {time_Time} r : rename.
Arguments TTL {time_Time} r : rename.
Arguments Err {time_Time} r : rename.
Arguments Elapsed {time_Time} r : rename.
Arguments Ok {time_Time} r : rename.
Arguments Live {time_Time} r : rename.
Arguments Command {time_Time} r : rename.
Arguments Group {time_Time} r : rename.
Arguments Detect {time_Time} r : rename.
Arguments Key {time_Time} r : rename.
Arguments Time {time_Time} r : rename.
Arguments fields {time_Time} r : rename.
Arguments new_Response {time_Time} time_zero.
Arguments UnmarshalText {time_Time} time_Parse r b.
Arguments same_field {time_Time} k r r'.
Arguments runcmd {time_Time} time_zero time_Parse db cmd args n.
Arguments Set_ {time_Time} time_zero time_Parse db key id args n.
Arguments Get {time_Time} time_zero time_Parse db key id args n.
Arguments TTL_ {time_Time} time_zero time_Parse db key id n.
Arguments UnmarshalText_v2020 {time_Time} time_Parse r b.
Arguments Get_v2020 {time_Time} time_zero time_Parse db key id args n.

(** ** The properties at work on the test data *)

#[local] Abbreviation decode := (UnmarshalText testdata.Parse).
#[local] Abbreviation new := (new_Response testdata.zero_time).

(** Closed goals about membership and duplicates are decided. *)
Ltac decided :=
  match goal with
  | |- ?P => apply (bool_decide_unpack P); vm_compute; exact I
  end.

(** The stand-in parser honours the contract of [time.Parse]. *)
Lemma testdata_Parse_failure (layout value : string) (t : Z) (e : error) :
  testdata.Parse layout value = (t, Some e) -> t = testdata.zero_time.
Proof.
  unfold testdata.Parse.
  destruct (String.eqb value _); [discriminate|].
  destruct (String.eqb value _); [discriminate|].
  intros H. injection H as <- _. reflexivity.
Qed.

(** The replies of [TestResponseErrors] fail as the tests expect. *)
Example decode_test_errors :
  option_map Error (snd (decode new testdata.invalid)) =
    Some "error unmarshaling response: not valid JSON" /\
  option_map Error (snd (decode new testdata.unknown_value)) =
    Some "error unmarshaling response: unknown response value" /\
  option_map Error (snd (decode new testdata.unknown_type)) =
    Some "error unmarshaling response: unknown field type".
Proof. repeat split. Qed.

(** The reply of [testResponseSingleJSON] decodes as the test expects. *)
Example decode_single_json :
  let res := decode new testdata.single_json in
  snd res = None /\
  Ok (fst res) = true /\
  Object (fst res) = gjson.Raw testdata.point /\
  map_to_list (FieldNames (fst res)) = [("fY", 0%Z); ("fZ", 1%Z)] /\
  FieldValues (fst res) =
    [S754_finite false 8796084226114978 (-43); S754_finite false 8655355533852672 (-46)] /\
  TTL (fst res) = S754_finite false 8796093022208000 (-44) /\
  Elapsed (fst res) = "100ms".
Proof. vm_compute. repeat split. Qed.

(** C4 as stated fails.  The bytes [5] are valid JSON, the document is no
    object and so has neither a top-level key nor a [fields] value, none of
    the three cases as the claim words them applies, yet the decode fails,
    with the error of an unknown value.  The same holds for [[1]]. *)
Lemma lone_value_counterexample :
  (gjson.ValidBytes testdata.lone_number = true /\
   gjson.ParseBytes testdata.lone_number = testdata.jnumber "5" 5629499534213120 (-50) /\
   gjson.IsObject (gjson.ParseBytes testdata.lone_number) = false /\
   snd (decode new testdata.lone_number) = Some (kind_error UnknownField)) /\
  (gjson.ValidBytes testdata.array_of_one = true /\
   gjson.ParseBytes testdata.array_of_one =
     testdata.jarray [testdata.jnumber "1" 4503599627370496 (-52)] /\
   gjson.IsObject (gjson.ParseBytes testdata.array_of_one) = false /\
   snd (decode new testdata.array_of_one) = Some (kind_error UnknownField)).
Proof. repeat split. Qed.

(** C1 as stated fails: in the reply [{"ok":true,"object":5}] the value of
    [object] is a number whose raw text is [5]; the decode succeeds and
    leaves [Object] empty. *)
Lemma object_number_counterexample :
  let v := testdata.jnumber "5" 5629499534213120 (-50) in
  let res := decode new testdata.object_number in
  gjson.entries (gjson.ParseBytes testdata.object_number) =
    [("ok", gjson.JTrue); ("object", v)] /\
  gjson.Type_ v = gjson.TNumber /\
  gjson.Raw v = "5" /\
  snd res = None /\
  Object (fst res) = EmptyString /\
  Object (fst res) <> gjson.Raw v.
Proof. vm_compute. repeat split. discriminate. Qed.

Lemma object_raw_or_string_witness :
  Object (fst (decode new testdata.single_json)) = gjson.Raw testdata.point /\
  Object (fst (decode new testdata.single_string)) = "objstr" /\
  Object (fst (decode new testdata.object_number)) = EmptyString.
Proof.
  split; [|split].
  - refine (proj1 (object_raw_or_string Z testdata.Parse new _ testdata.single_json
                     [("ok", gjson.JTrue)] _ testdata.point _ _ _) eq_refl).
    + vm_compute. reflexivity.
    + reflexivity.
    + decided.
  - refine (proj1 (proj2 (object_raw_or_string Z testdata.Parse new _
                            testdata.single_string
                            [("ok", gjson.JTrue)] _ (testdata.jstring "objstr") _ _ _))
              _ _ eq_refl).
    + vm_compute. reflexivity.
    + reflexivity.
    + decided.
  - refine (proj2 (proj2 (object_raw_or_string Z testdata.Parse new _
                            testdata.object_number
                            [("ok", gjson.JTrue)] []
                            (testdata.jnumber "5" 5629499534213120 (-50)) _ _ _))
              _ _).
    + vm_compute. reflexivity.
    + reflexivity.
    + decided.
    + discriminate.
    + discriminate.
Defined.

(** C2 as stated fails.  In [{"fields":["a","a"]}] the array has two names,
    yet [FieldNames] has one entry, and its index is 1.  In
    [{"fields":["a"],"fields":["b"]}] the array of the last [fields] key has
    one name, and that name gets index 1.  Both decodes succeed. *)
Lemma fields_array_counterexample :
  (let res := decode new testdata.fields_array_twice_a in
   gjson.entries (gjson.ParseBytes testdata.fields_array_twice_a) =
     [("fields", testdata.jarray [testdata.jstring "a"; testdata.jstring "a"])] /\
   snd res = None /\
   size (FieldNames (fst res)) = 1 /\
   FieldNames (fst res) !! "a" = Some 1%Z) /\
  (let res := decode new testdata.fields_key_twice in
   gjson.entries (gjson.ParseBytes testdata.fields_key_twice) =
     [("fields", testdata.jarray [testdata.jstring "a"]);
      ("fields", testdata.jarray [testdata.jstring "b"])] /\
   snd res = None /\
   size (FieldNames (fst res)) = 1 /\
   FieldNames (fst res) !! "b" = Some 1%Z).
Proof. vm_compute. repeat split. Qed.

Lemma fields_array_indexes_witness :
  let r' := fst (decode new testdata.multiple_ids) in
  size (FieldNames r') = 2 /\
  FieldNames r' !! "fZ" = Some 0%Z /\
  FieldNames r' !! "fY" = Some 1%Z /\
  FieldValues r' = [] /\
  snd (decode new testdata.multiple_ids) = None.
Proof.
  destruct (fields_array_indexes Z testdata.zero_time testdata.Parse
              testdata.multiple_ids
              (gjson.Raw (testdata.jarray [testdata.jstring "fZ"; testdata.jstring "fY"]))
              [("ok", gjson.JTrue)]
              [("ids", testdata.jarray [testdata.jstring "value1"; testdata.jstring "value2"]);
               ("count", testdata.jnumber "2" 4503599627370496 (-51));
               ("cursor", testdata.jzero)]
              [testdata.jstring "fZ"; testdata.jstring "fY"])
    as (Hsize & Hindex & _ & Hvalues & Hok).
  - reflexivity.
  - reflexivity.
  - decided.
  - decided.
  - reflexivity.
  - decided.
  - reflexivity.
  - split; [exact Hsize|]. split; [exact (Hindex 0%nat _ eq_refl)|].
    split; [exact (Hindex 1%nat _ eq_refl)|]. split; [exact Hvalues|exact (Hok eq_refl)].
Defined.

(** C3 as stated fails.  In [{"fields":{"a":1,"a":2}}] the object has two
    pairs, yet [FieldNames] has one entry, and its index is 1; the decode
    succeeds. *)
Lemma fields_object_counterexample :
  let res := decode new testdata.fields_object_twice_a in
  gjson.entries (gjson.ParseBytes testdata.fields_object_twice_a) =
    [("fields", testdata.jobject [("a", testdata.jnumber "1" 4503599627370496 (-52));
                                  ("a", testdata.jnumber "2" 4503599627370496 (-51))])] /\
  snd res = None /\
  size (FieldNames (fst res)) = 1 /\
  FieldNames (fst res) !! "a" = Some 1%Z /\
  length (FieldValues (fst res)) = 2.
Proof. vm_compute. repeat split. Qed.

Lemma fields_object_indexes_witness :
  let r' := fst (decode new testdata.single_json) in
  size (FieldNames r') = 2 /\
  FieldNames r' !! "fY" = Some 0%Z /\
  FieldValues r' !! 0%nat = Some (S754_finite false 8796084226114978 (-43)) /\
  FieldNames r' !! "fZ" = Some 1%Z /\
  FieldValues r' !! 1%nat = Some (S754_finite false 8655355533852672 (-46)) /\
  snd (decode new testdata.single_json) = None.
Proof.
  destruct (fields_object_indexes Z testdata.zero_time testdata.Parse
              testdata.single_json
              (gjson.Raw (testdata.jobject
                 [("fY", testdata.jnumber "999.999" 8796084226114978 (-43));
                  ("fZ", testdata.jnumber "123" 8655355533852672 (-46))]))
              [("ok", gjson.JTrue); ("object", testdata.point)]
              [("ttl", testdata.jnumber "500" 8796093022208000 (-44));
               ("elapsed", testdata.jstring "100ms")]
              [("fY", testdata.jnumber "999.999" 8796084226114978 (-43));
               ("fZ", testdata.jnumber "123" 8655355533852672 (-46))])
    as (Hsize & _ & Hindex & _ & Hok).
  - reflexivity.
  - reflexivity.
  - decided.
  - decided.
  - reflexivity.
  - decided.
  - reflexivity.
  - split; [exact Hsize|].
    destruct (Hindex 0%nat _ _ eq_refl) as (Hn0 & Hv0).
    destruct (Hindex 1%nat _ _ eq_refl) as (Hn1 & Hv1).
    split; [exact Hn0|]. split; [exact Hv0|]. split; [exact Hn1|].
    split; [exact Hv1|exact (Hok eq_refl)].
Defined.

(** [{"ok":true,"id":"value1","zzz":true,"err":"late"}]: the error of an
    unknown value, [Ok] and [ID] set, [Err] as it was. *)
Lemma unknown_key_keeps_prefix_witness :
  exists r1 : Response Z,
    decode new testdata.unknown_in_the_middle = (r1, Some (kind_error UnknownField)) /\
    Ok r1 = true /\ ID r1 = "value1" /\ Err r1 = EmptyString.
Proof.
  destruct (unknown_key_keeps_prefix Z testdata.Parse new
              testdata.unknown_in_the_middle "{}"
              [("ok", gjson.JTrue); ("id", testdata.jstring "value1")]
              [("err", testdata.jstring "late")] "zzz" gjson.JTrue)
    as (r1 & Hprefix & Hall & Hframe).
  - reflexivity.
  - reflexivity.
  - reflexivity.
  - reflexivity.
  - exists r1. split; [exact Hall|].
    assert (Herr : same_field "err" new r1) by (apply Hframe; decided).
    injection Hprefix as <-.
    split; [reflexivity|]. split; [reflexivity|]. symmetry. exact Herr.
Defined.

(** [Get] against a server that answers [{"ok":false,"err":"id not found"}],
    and against one that answers [{"ok":false,"err":"bad request"}]. *)
Lemma get_not_found_translation_witness :
  fst (Get testdata.zero_time testdata.Parse
         (mkDatabase (Some (testdata.answering testdata.not_found)))
         "test" "value1" None testdata.quiet) = Returns (None, None) /\
  fst (Get testdata.zero_time testdata.Parse
         (mkDatabase (Some (testdata.answering testdata.bad_request)))
         "test" "value1" None testdata.quiet) =
    Returns (None, Some (Errorf_w_s errResponse "bad request")) /\
  Error (Errorf_w_s errResponse "bad request") = "received error: bad request".
Proof.
  destruct (get_not_found_translation Z testdata.zero_time testdata.Parse
              (testdata.answering testdata.not_found) "test" "value1" None
              testdata.quiet testdata.not_found
              (fst (decode new testdata.not_found)) eq_refl eq_refl eq_refl)
    as (_ & Hfound & _).
  destruct (get_not_found_translation Z testdata.zero_time testdata.Parse
              (testdata.answering testdata.bad_request) "test" "value1" None
              testdata.quiet testdata.bad_request
              (fst (decode new testdata.bad_request)) eq_refl eq_refl eq_refl)
    as (_ & _ & Hother).
  split; [exact (Hfound eq_refl)|].
  destruct Hother as (Hres & Htext & _); [discriminate|].
  split; [exact Hres|exact Htext].
Defined.

(** C7.  The code where it departs from the claim: [Set] called with key,
    id and an empty slice that is not nil has no variadic argument and ought
    to fail with [errArgs] before any request; the guard compares with nil
    and misses it, the request [SET test obj1] is sent, and with the
    server's consent no error comes back. *)
Lemma empty_arguments_counterexample :
  Set_ testdata.zero_time testdata.Parse
    (mkDatabase (Some (testdata.answering testdata.ok_true)))
    "test" "obj1" (Some []) testdata.quiet =
  (Returns None, mkNetwork [["SET"; "test"; "obj1"]] 0).
Proof. vm_compute. reflexivity. Qed.

(** The geofence reply with a timestamp, and the same with a text that is
    none. *)
Lemma time_parse_failure_is_silent_witness :
  (snd (decode new testdata.fence_bad_time) = None /\
   Time (fst (decode new testdata.fence_bad_time)) = testdata.zero_time) /\
  (snd (decode new testdata.fence_del) = None /\
   Time (fst (decode new testdata.fence_del)) = 1535396853671191005%Z).
Proof.
  split.
  - destruct (time_parse_failure_is_silent Z testdata.zero_time testdata.Parse
                testdata_Parse_failure new testdata.fence_bad_time
                [("command", testdata.jstring "del"); ("id", testdata.jstring "value3")]
                [] (testdata.jstring "yesterday"))
      as (Hok & Hfail & _).
    + reflexivity.
    + reflexivity.
    + decided.
    + reflexivity.
    + split; [exact Hok|]. exact (Hfail _ _ eq_refl).
  - destruct (time_parse_failure_is_silent Z testdata.zero_time testdata.Parse
                testdata_Parse_failure new testdata.fence_del
                [("command", testdata.jstring "del"); ("id", testdata.jstring "value3")]
                [] (testdata.jstring "2018-08-27T19:07:33.671191005Z"))
      as (Hok & _ & Hparsed).
    + reflexivity.
    + reflexivity.
    + decided.
    + reflexivity.
    + split; [exact Hok|]. exact (Hparsed _ eq_refl).
Defined.

(** The same reply decoded twice into one model, and a reply with two
    [fields] keys decoded into a new one. *)
Lemma decode_accumulates_witness :
  (let r1 := fst (decode new testdata.multiple_ids) in
   let r2 := fst (decode r1 testdata.multiple_ids) in
   IDs r1 = ["value1"; "value2"] /\
   IDs r2 = ["value1"; "value2"; "value1"; "value2"] /\
   fields r2 = 4%Z /\
   FieldNames r2 !! "fZ" = Some 2%Z /\
   FieldNames r2 !! "fY" = Some 3%Z) /\
  (let r' := fst (decode new testdata.fields_key_twice) in
   fields r' = 2%Z /\
   FieldNames r' !! "b" = Some 1%Z /\
   FieldNames r' !! "a" = None).
Proof.
  split.
  - destruct (decode_accumulates Z testdata.Parse
                (fst (decode new testdata.multiple_ids)) testdata.multiple_ids)
      as (_ & Hids & _ & Hcounter & Hnames).
    + reflexivity.
    + reflexivity.
    + vm_compute. discriminate.
    + reflexivity.
    + destruct (Hnames [("ok", gjson.JTrue)]
                  [("ids", testdata.jarray [testdata.jstring "value1";
                                            testdata.jstring "value2"]);
                   ("count", testdata.jnumber "2" 4503599627370496 (-51));
                   ("cursor", testdata.jzero)]
                  (testdata.jarray [testdata.jstring "fZ"; testdata.jstring "fY"]))
        as (Hindex & _).
      * reflexivity.
      * decided.
      * decided.
      * split; [reflexivity|]. split; [exact Hids|]. split; [exact Hcounter|].
        split; [exact (Hindex 0%nat "fZ" eq_refl)|exact (Hindex 1%nat "fY" eq_refl)].
  - destruct (decode_accumulates Z testdata.Parse new testdata.fields_key_twice)
      as (_ & _ & _ & Hcounter & Hnames).
    + reflexivity.
    + reflexivity.
    + vm_compute. discriminate.
    + reflexivity.
    + destruct (Hnames [("fields", testdata.jarray [testdata.jstring "a"])] []
                  (testdata.jarray [testdata.jstring "b"]))
        as (Hindex & Hfresh).
      * reflexivity.
      * decided.
      * decided.
      * split; [exact Hcounter|]. split; [exact (Hindex 0%nat "b" eq_refl)|].
        apply Hfresh. decided.
Defined.

(** ** More properties at work on the test data *)

(** The geofence reply has no [ok] key: decoded into a model that reports
    ok, it leaves [Ok] set. *)
Lemma decode_leaves_absent_keys_witness :
  Ok (fst (decode (fst (decode new testdata.ok_true)) testdata.fence_del)) = true.
Proof.
  symmetry.
  apply (decode_leaves_absent_keys Z testdata.Parse
           (fst (decode new testdata.ok_true)) testdata.fence_del "ok").
  decided.
Defined.

(** [{"id":"a","ok":true,"id":"b"}] leaves [ID] at [b]. *)
Lemma last_value_wins_witness :
  ID (fst (decode new testdata.id_twice)) = "b".
Proof.
  refine (proj1 (proj2 (last_value_wins Z testdata.Parse new testdata.id_twice
                          [("id", testdata.jstring "a"); ("ok", gjson.JTrue)] []
                          "id" (testdata.jstring "b") _ _ _ _)) eq_refl).
  - reflexivity.
  - reflexivity.
  - reflexivity.
  - decided.
Defined.

(** [{"fields":["a"],"fields":true}] fails, the name [a] is gone and the
    counter stands at 1. *)
Lemma bad_fields_clears_names_witness :
  let res := decode new testdata.fields_then_bad in
  snd res = Some (kind_error UnknownFieldType) /\
  FieldNames (fst res) = ∅ /\
  fields (fst res) = 1%Z.
Proof.
  destruct (bad_fields_clears_names Z testdata.Parse new testdata.fields_then_bad "{}"
              [("fields", testdata.jarray [testdata.jstring "a"])] [] gjson.JTrue)
    as (r1 & Hprefix & Hall).
  - reflexivity.
  - reflexivity.
  - reflexivity.
  - reflexivity.
  - cbv zeta. rewrite Hall. injection Hprefix as <-. repeat split.
Defined.

(** The members of a reply in two orders. *)
Lemma decode_order_irrelevant_witness :
  decode new testdata.multiple_ids = decode new testdata.multiple_ids_reordered.
Proof.
  refine (proj1 (decode_order_irrelevant Z testdata.Parse new testdata.multiple_ids
                   testdata.multiple_ids_reordered _ _ _ _ _)).
  - reflexivity.
  - reflexivity.
  - cbn [gjson.entries gjson.ParseBytes testdata.multiple_ids
           testdata.multiple_ids_reordered testdata.jobject].
    solve_Permutation.
  - decided.
  - reflexivity.
Defined.

(** In [{"fields":{"a":1,"a":2}}] the one index of [FieldNames], 1, addresses
    the second of the two values. *)
Lemma field_indexes_address_values_witness :
  let r' := fst (decode new testdata.fields_object_twice_a) in
  FieldNames r' !! "a" = Some 1%Z /\
  exists x : float64, FieldValues r' !! 1%nat = Some x.
Proof.
  split; [reflexivity|].
  refine (proj2 (field_indexes_address_values Z testdata.zero_time testdata.Parse
                   testdata.fields_object_twice_a _ _ "a" 1%Z eq_refl)).
  - intros v Hv. apply list_elem_of_singleton in Hv. injection Hv as ->. reflexivity.
  - reflexivity.
Defined.

(** Against a server that answers [{"ok":true,"object":{"id":"test"},
    "ttl":5.67}]. *)
Lemma commands_return_decoded_response_witness :
  let db := mkDatabase (Some (testdata.answering testdata.ok_object_ttl)) in
  let r := fst (decode new testdata.ok_object_ttl) in
  Object r = gjson.Raw (testdata.jobject [("id", testdata.jstring "test")]) /\
  fst (Get testdata.zero_time testdata.Parse db "test" "obj1" None testdata.quiet) =
    Returns (Some r, None) /\
  fst (TTL_ testdata.zero_time testdata.Parse db "test" "obj1" testdata.quiet) =
    Returns (S754_finite false 6383852471797678 (-50), None).
Proof.
  destruct (commands_return_decoded_response Z testdata.zero_time testdata.Parse
              (testdata.answering testdata.ok_object_ttl) "test" "obj1" None
              testdata.quiet testdata.ok_object_ttl
              (fst (decode new testdata.ok_object_ttl)))
    as (Hget & _ & _ & Httl).
  - intros request. reflexivity.
  - reflexivity.
  - reflexivity.
  - split; [reflexivity|]. split; [exact Hget|exact Httl].
Defined.

(** Against a server that answers [{"ok":false,"err":"id not found"}]. *)
Lemma get_hides_only_not_found_witness :
  exists (b : gjson.bytes) (r : Response Z),
    b = testdata.not_found /\
    decode new b = (r, None) /\ Ok r = false /\ Err r = "id not found".
Proof.
  destruct (get_hides_only_not_found Z testdata.zero_time testdata.Parse
              (testdata.answering testdata.not_found) "test" "value1" None
              testdata.quiet eq_refl)
    as (b & r & Hreply & Hdec & Hok & Herr).
  exists b, r. injection Hreply as <-. repeat split; assumption.
Defined.

(** The [Get] of 2020 against the same server. *)
Lemma get_v2020_not_found_witness :
  fst (Get_v2020 testdata.zero_time testdata.Parse
         (mkDatabase (Some (testdata.answering testdata.not_found)))
         "test" "value1" None testdata.quiet) =
    Returns (None, Some (Errorf_w_s errResponse_v2020 "id not found")) /\
  Error (Errorf_w_s errResponse_v2020 "id not found") = "received error: id not found".
Proof.
  exact (proj1 (get_v2020_not_found Z testdata.zero_time testdata.Parse
                  (testdata.answering testdata.not_found) "test" "value1" None
                  testdata.quiet)
           testdata.not_found
           (fst (UnmarshalText_v2020 testdata.Parse new testdata.not_found))
           eq_refl eq_refl eq_refl).
Defined.
